(** * whats_cooking_good_looking / train_ner_workflow.py

    A shallow embedding of the NER training workflow: the accuracy
    evaluator [evaluate_ner], the training-data formatter
    [format_tasks_for_train], the model loader [load_model] and the
    retraining gate [train_model_if_necessary].

    The Python functions work on dynamically typed values produced by
    [json.loads]; they are embedded over a type [pyval] of such values,
    with Python's exceptions as an error monad.  The libraries the
    workflow calls ([json], [spacy], the storage helpers of [utils]) are
    interfaces (type classes); every general statement holds for any
    implementation of them. *)

From Stdlib Require Import ZArith QArith List String Ascii Bool Lia.
From Stdlib Require Import DecimalString.
Import ListNotations.
Open Scope string_scope.
Open Scope list_scope.
Open Scope Z_scope.
#[local] Set Warnings "-register-all".

(** ** Python values, exceptions and the operations the workflow uses *)

Module Py.

(** A binary64 float, by its exact value: [FFin m e] is [m * 2^e]. *)
Inductive pyfloat : Type :=
| FNan
| FInf (negative : bool)
| FFin (m e : Z).

(** The values [json.loads] returns, and the [bytes] and [str] it
    accepts.  A [str] is held by its UTF-8 encoding, so that [PyStr] and
    [PyBytes] both carry a byte string; a [dict] born from JSON has [str]
    keys and keeps its insertion order. *)
Inductive pyval : Type :=
| PyNone
| PyBool (b : bool)
| PyInt (z : Z)
| PyFloat (f : pyfloat)
| PyStr (s : string)
| PyBytes (s : string)
| PyList (l : list pyval)
| PyDict (d : list (string * pyval)).

Inductive pyerr : Type :=
| KeyError (key : pyval)
| IndexError
| TypeError
| AttributeError
| RuntimeError
| ZeroDivisionError
| UnboundLocalError (name : string)
| JSONDecodeError
| ExternalError (what : string).

Inductive result (A : Type) : Type :=
| Ok (a : A)
| Raise (e : pyerr).
Arguments Ok {A} a.
Arguments Raise {A} e.

Definition bind {A B} (c : result A) (k : A -> result B) : result B :=
  match c with
  | Ok a => k a
  | Raise e => Raise e
  end.

(** [for x in items: body], with the loop's variables threaded as [s]. *)
Fixpoint for_each {X S} (items : list X) (body : X -> S -> result S) (s : S)
  : result S :=
  match items with
  | [] => Ok s
  | x :: rest => bind (body x s) (for_each rest body)
  end.

(** *** Dictionaries with [str] keys *)

Fixpoint dict_get {V} (k : string) (d : list (string * V)) : option V :=
  match d with
  | [] => None
  | (k', v) :: rest => if String.eqb k' k then Some v else dict_get k rest
  end.

Fixpoint dict_set {V} (k : string) (v : V) (d : list (string * V))
  : list (string * V) :=
  match d with
  | [] => [(k, v)]
  | (k', v') :: rest =>
      if String.eqb k' k then (k', v) :: rest else (k', v') :: dict_set k v rest
  end.

(** [d.pop(k)] on a dict that has the key. *)
Fixpoint dict_pop {V} (k : string) (d : list (string * V))
  : list (string * V) :=
  match d with
  | [] => []
  | (k', v) :: rest =>
      if String.eqb k' k then rest else (k', v) :: dict_pop k rest
  end.

(** *** Equality [==] *)

Definition pyfloat_eqb (x y : pyfloat) : bool :=
  match x, y with
  | FFin m1 e1, FFin m2 e2 =>
      let e := Z.min e1 e2 in
      m1 * 2 ^ (e1 - e) =? m2 * 2 ^ (e2 - e)
  | FInf s1, FInf s2 => Bool.eqb s1 s2
  | _, _ => false
  end.

(** [bool], [int] and [float] compare by value: [True == 1 == 1.0]. *)
Definition py_number (v : pyval) : option pyfloat :=
  match v with
  | PyBool b => Some (FFin (Z.b2z b) 0)
  | PyInt z => Some (FFin z 0)
  | PyFloat f => Some f
  | _ => None
  end.

Fixpoint py_eq (a b : pyval) {struct a} : bool :=
  match a with
  | PyNone => match b with PyNone => true | _ => false end
  | PyBool _ | PyInt _ | PyFloat _ =>
      match py_number a, py_number b with
      | Some x, Some y => pyfloat_eqb x y
      | _, _ => false
      end
  | PyStr s => match b with PyStr t => String.eqb s t | _ => false end
  | PyBytes s => match b with PyBytes t => String.eqb s t | _ => false end
  | PyList xs =>
      match b with
      | PyList ys =>
          (fix go (xs ys : list pyval) {struct xs} : bool :=
             match xs, ys with
             | [], [] => true
             | x :: xs', y :: ys' => py_eq x y && go xs' ys'
             | _, _ => false
             end) xs ys
      | _ => false
      end
  | PyDict d =>
      match b with
      | PyDict d' =>
          Nat.eqb (List.length d) (List.length d') &&
          (fix go (d : list (string * pyval)) {struct d} : bool :=
             match d with
             | [] => true
             | (k, v) :: rest =>
                 match dict_get k d' with
                 | Some v' => py_eq v v'
                 | None => false
                 end && go rest
             end) d
      | _ => false
      end
  end.

(** [hash(v)] raises [TypeError] on a list or a dict. *)
Definition py_hashable (v : pyval) : bool :=
  match v with
  | PyList _ | PyDict _ => false
  | _ => true
  end.

(** *** Strings: code points of a UTF-8 encoded [str] *)

(** A continuation byte, [10xxxxxx]. *)
Definition utf8_cont (c : ascii) : bool :=
  match c with
  | Ascii _ _ _ _ _ _ false true => true
  | _ => false
  end.

Fixpoint str_len (s : string) : nat :=
  match s with
  | EmptyString => O
  | String c rest => ((if utf8_cont c then 0 else 1) + str_len rest)%nat
  end.

(** The continuation bytes waiting for their lead byte, and the
    characters after them. *)
Fixpoint str_chars_aux (s : string) : string * list string :=
  match s with
  | EmptyString => (EmptyString, [])
  | String c rest =>
      let (pending, chars) := str_chars_aux rest in
      if utf8_cont c then (String c pending, chars)
      else (EmptyString, String c pending :: chars)
  end.

Definition str_chars (s : string) : list string :=
  let (pending, chars) := str_chars_aux s in
  match pending with
  | EmptyString => chars
  | _ => pending :: chars
  end.

(** *** Iteration, [len] and subscription *)

(** The items a [for] loop visits; [TypeError] when not iterable. *)
Definition py_iter (v : pyval) : result (list pyval) :=
  match v with
  | PyList l => Ok l
  | PyDict d => Ok (map (fun kv => PyStr (fst kv)) d)
  | PyStr s => Ok (map PyStr (str_chars s))
  | PyBytes s =>
      Ok (map (fun c => PyInt (Z.of_nat (nat_of_ascii c)))
            (list_ascii_of_string s))
  | PyNone | PyBool _ | PyInt _ | PyFloat _ => Raise TypeError
  end.

Definition py_len (v : pyval) : result Z :=
  match v with
  | PyList l => Ok (Z.of_nat (List.length l))
  | PyDict d => Ok (Z.of_nat (List.length d))
  | PyStr s => Ok (Z.of_nat (str_len s))
  | PyBytes s => Ok (Z.of_nat (String.length s))
  | PyNone | PyBool _ | PyInt _ | PyFloat _ => Raise TypeError
  end.

(** A sequence index: an [int] or a [bool], negative ones from the end. *)
Definition py_index (k : pyval) : option Z :=
  match k with
  | PyInt i => Some i
  | PyBool b => Some (Z.b2z b)
  | _ => None
  end.

Definition seq_item {X} (l : list X) (i : Z) : result X :=
  let n := Z.of_nat (List.length l) in
  let j := if i <? 0 then i + n else i in
  if (j <? 0) || (n <=? j) then Raise IndexError
  else match nth_error l (Z.to_nat j) with
       | Some x => Ok x
       | None => Raise IndexError
       end.

(** [v[k]]. *)
Definition py_getitem (v k : pyval) : result pyval :=
  match v with
  | PyDict d =>
      if py_hashable k then
        match k with
        | PyStr s =>
            match dict_get s d with
            | Some x => Ok x
            | None => Raise (KeyError k)
            end
        | _ => Raise (KeyError k)
        end
      else Raise TypeError
  | PyList l =>
      match py_index k with
      | Some i => seq_item l i
      | None => Raise TypeError
      end
  | PyStr s =>
      match py_index k with
      | Some i => bind (seq_item (str_chars s) i) (fun c => Ok (PyStr c))
      | None => Raise TypeError
      end
  | PyBytes s =>
      match py_index k with
      | Some i =>
          bind (seq_item (list_ascii_of_string s) i)
               (fun c => Ok (PyInt (Z.of_nat (nat_of_ascii c))))
      | None => Raise TypeError
      end
  | PyNone | PyBool _ | PyInt _ | PyFloat _ => Raise TypeError
  end.

(** [a / b] on two [int]s.  The float Python returns is the binary64
    nearest to the exact quotient; the embedding keeps the exact
    quotient, in lowest terms. *)
Definition py_truediv (a b : Z) : result Q :=
  if b =? 0 then Raise ZeroDivisionError
  else Ok (Qred (inject_Z a / inject_Z b)).

(** *** Dictionaries with arbitrary hashable keys *)

(** A dict such as [model_hits] or [model_acc]: a stored key [k'] is
    found by a looked-up key [k] when [k' == k]. *)
Fixpoint hdict_get {V} (k : pyval) (d : list (pyval * V)) : option V :=
  match d with
  | [] => None
  | (k', v) :: rest => if py_eq k' k then Some v else hdict_get k rest
  end.

Fixpoint hdict_set {V} (k : pyval) (v : V) (d : list (pyval * V))
  : list (pyval * V) :=
  match d with
  | [] => [(k, v)]
  | (k', v') :: rest =>
      if py_eq k' k then (k', v) :: rest else (k', v') :: hdict_set k v rest
  end.

End Py.
Export Py.

Declare Scope py_scope.
Delimit Scope py_scope with py.
Notation "x <- c ;; k" := (bind c (fun x => k))
  (at level 61, c at next level, right associativity) : py_scope.
Notation "v .[ k ]" := (py_getitem v (PyStr k))
  (at level 1, format "v .[ k ]") : py_scope.
Open Scope py_scope.

(** ** The libraries the workflow calls *)

(** [json.loads] on a [str] and on a [bytes], and [json.dumps]. *)
Class Json : Type := {
  loads_str : string -> result pyval;
  loads_bytes : string -> result pyval;
  dumps : pyval -> result string
}.

(** The outside world of [load_model]: the file system, the bucket and
    the spaCy models.  [download_from_gcs] is the helper of [utils]; it
    answers the list of the files it wrote. *)
Class Runtime : Type := {
  world : Type;
  Language : Type;
  mkdir : string -> world -> result unit * world;
  download_from_gcs :
    string -> string -> string -> bool -> world -> result (list string) * world;
  spacy_load : string -> world -> result Language * world
}.

(** ** The workflow *)

Definition SPACY_MODEL : list (string * string) := [("en", "en_core_web_sm")].

(** [THRESHOLD_ACCURACY = 0.7]: the float the literal denotes. *)
Definition THRESHOLD_ACCURACY : Q := 3152519739159347 # 4503599627370496.

Section Evaluator.
Context {json : Json}.

(** [json.loads(s)] takes a [str] or a [bytes]. *)
Definition json_loads (s : pyval) : result pyval :=
  match s with
  | PyStr t => loads_str t
  | PyBytes b => loads_bytes b
  | _ => Raise TypeError
  end.

(** A dict iterator remembers the size of the dict at its creation and
    checks it at every step, the last one included, before it looks for
    the next key.  [keys] are the keys still to visit, [used] the size
    remembered, [d] the dict as the loop body has left it. *)
Fixpoint strip_id_dict (keys : list string) (used : nat)
  (d : list (string * pyval)) : result (list (string * pyval)) :=
  if negb (Nat.eqb (List.length d) used) then Raise RuntimeError
  else match keys with
       | [] => Ok d
       | key :: rest =>
           strip_id_dict rest used
             (if String.eqb key "id" then dict_pop "id" d else d)
       end.

(** Lines 76-78:
    [for key in annotation_result: if key == "id": annotation_result.pop("id")].
    Only a dict has a [pop] that takes a key. *)
Definition strip_id (annotation_result : pyval) : result pyval :=
  match annotation_result with
  | PyDict d =>
      d' <- strip_id_dict (map fst d) (List.length d) d ;; Ok (PyDict d')
  | _ =>
      keys <- py_iter annotation_result ;;
      if existsb (fun key => py_eq key (PyStr "id")) keys then
        match annotation_result with
        | PyList _ => Raise TypeError
        | _ => Raise AttributeError
        end
      else Ok annotation_result
  end.

(** [model_hits[k] += x] on the [defaultdict(int)]. *)
Fixpoint hits_add (k : pyval) (x : Z) (model_hits : list (pyval * Z))
  : list (pyval * Z) :=
  match model_hits with
  | [] => [(k, 0 + x)]
  | (k', n) :: rest =>
      if py_eq k' k then (k', n + x) :: rest else (k', n) :: hits_add k x rest
  end.

(** Lines 80-81.  The counter is read, and the key hashed, before the
    right-hand side [prediction["result"] == annotation_result] is
    evaluated. *)
Definition count_prediction (annotation_result prediction : pyval)
  (model_hits : list (pyval * Z)) : result (list (pyval * Z)) :=
  model_version <- prediction.["model_version"] ;;
  if py_hashable model_version then
    payload <- prediction.["result"] ;;
    Ok (hits_add model_version (Z.b2z (py_eq payload annotation_result))
          model_hits)
  else Raise TypeError.

(** Lines 75-81, the body of the loop over the tasks. *)
Definition count_task (ls_task : pyval) (model_hits : list (pyval * Z))
  : result (list (pyval * Z)) :=
  results <- ls_task.["result"] ;;
  first <- py_getitem results (PyInt 0) ;;
  value <- first.["value"] ;;
  annotation_result <- strip_id value ;;
  predictions <- ls_task.["predictions"] ;;
  items <- py_iter predictions ;;
  for_each items (count_prediction annotation_result) model_hits.

(** Lines 73-81: [model_hits] when the first loop ends. *)
Definition ner_hits (tasks : pyval) : result (list (pyval * Z)) :=
  parsed <- json_loads tasks ;;
  ls_tasks <- py_iter parsed ;;
  for_each ls_tasks count_task [].

(** Lines 85-86. *)
Definition store_acc (num_task : Z) (entry : pyval * Z)
  (model_acc : list (pyval * Q)) : result (list (pyval * Q)) :=
  let (model_name, num_hits) := entry in
  acc <- py_truediv num_hits num_task ;;
  Ok (hdict_set model_name acc model_acc).

Definition evaluate_ner (tasks : pyval) : result (list (pyval * Q)) :=
  model_hits <- ner_hits tasks ;;
  num_task <- py_len tasks ;;
  for_each model_hits (store_acc num_task) [].

(** *** The formatter *)

Definition span : Type := pyval * pyval * pyval.

(** Lines 120-124: the comprehension; [ent["value"]["start"]] and
    [ent["value"]["end"]] are evaluated once per label. *)
Definition add_label (ent label : pyval) (entities : list span)
  : result (list span) :=
  v1 <- ent.["value"] ;;
  start <- v1.["start"] ;;
  v2 <- ent.["value"] ;;
  stop <- v2.["end"] ;;
  Ok (entities ++ [(start, stop, label)]).

Definition add_ent (ent : pyval) (entities : list span) : result (list span) :=
  value <- ent.["value"] ;;
  labels <- value.["labels"] ;;
  items <- py_iter labels ;;
  for_each items (add_label ent) entities.

Definition task_entities (ls_task : pyval) : result (list span) :=
  results <- ls_task.["result"] ;;
  ents <- py_iter results ;;
  for_each ents add_ent [].

Definition task_text (ls_task : pyval) : result pyval :=
  task <- ls_task.["task"] ;;
  data <- task.["data"] ;;
  data.["text"].

(** Lines 120-126, the body of the loop over the tasks. *)
Definition format_task (ls_task : pyval) (train_data : list (pyval * list span))
  : result (list (pyval * list span)) :=
  entities <- task_entities ls_task ;;
  match entities with
  | [] => Ok train_data
  | _ =>
      text <- task_text ls_task ;;
      Ok (train_data ++ [(text, entities)])
  end.

(** [train_data] when the loop ends. *)
Definition train_data_of (tasks : pyval) : result (list (pyval * list span)) :=
  parsed <- json_loads tasks ;;
  ls_tasks <- py_iter parsed ;;
  for_each ls_tasks format_task [].

(** What [json.dumps] sees of [train_data]: it writes a tuple as it
    writes a list. *)
Definition span_value (e : span) : pyval :=
  let '(start, stop, label) := e in PyList [start; stop; label].

Definition example_value (ex : pyval * list span) : pyval :=
  PyList [fst ex; PyDict [("entities", PyList (map span_value (snd ex)))]].

Definition format_tasks_for_train (tasks : pyval) : result pyval :=
  train_data <- train_data_of tasks ;;
  text <- dumps (PyList (map example_value train_data)) ;;
  Ok (PyStr text).

End Evaluator.

(** *** The model loader *)

Section Loader.
Context {rt : Runtime}.

(** Calls that change the world, and may raise. *)
Definition M (A : Type) : Type := world -> result A * world.

Definition ret {A} (a : A) : M A := fun w => (Ok a, w).

Definition raise {A} (e : pyerr) : M A := fun w => (Raise e, w).

Definition lift {A} (c : result A) : M A := fun w => (c, w).

Definition mbind {A B} (c : M A) (k : A -> M B) : M B :=
  fun w =>
    match c w with
    | (Ok a, w') => k a w'
    | (Raise e, w') => (Raise e, w')
    end.

Notation "x <~ c ;; k" := (mbind c (fun x => k))
  (at level 61, c at next level, right associativity).

(** The local variables a branch of the [if] has bound. *)
Record locals : Type := {
  nlp : option Language;
  model_name : option string
}.

(** Lines 148-155. *)
Definition load_model_branch (lang : string) (from_gcs : bool)
  (gcs_bucket gcs_source_blob_name : string) : M locals :=
  if from_gcs then
    _ <~ mkdir "tmp" ;;
    files <~ download_from_gcs gcs_bucket gcs_source_blob_name "tmp" true ;;
    output_filename <~ lift (seq_item files 0) ;;
    loaded <~ spacy_load output_filename ;;
    ret {| nlp := Some loaded; model_name := None |}
  else
    name <~ lift (match dict_get lang SPACY_MODEL with
                  | Some name => Ok name
                  | None => Raise (KeyError (PyStr lang))
                  end) ;;
    ret {| nlp := None; model_name := Some name |}.

(** Lines 148-157: line 156, [nlp = spacy.load(model_name)], follows
    both branches. *)
Definition load_model (lang : string) (from_gcs : bool)
  (gcs_bucket gcs_source_blob_name : string) : M Language :=
  env <~ load_model_branch lang from_gcs gcs_bucket gcs_source_blob_name ;;
  match model_name env with
  | None => raise (UnboundLocalError "model_name")
  | Some name =>
      loaded <~ spacy_load name ;;
      ret loaded
  end.

End Loader.

(** *** The training gate *)

(** A task called from the dynamic workflow.  The arguments
    [train_data] and [nlp] of [train_model] are outputs of earlier
    calls, named by the position of the call. *)
Inductive invocation : Type :=
| call_format_tasks_for_train (tasks : pyval)
| call_load_model (lang : string) (from_gcs : bool)
    (gcs_bucket gcs_source_blob_name : string)
| call_train_model (train_data nlp : nat) (training_iterations : Z).

(** Lines 210-215, over the local variables [metrics_dict] and
    [model_name]. *)
Definition train_gate (metrics_dict : list (pyval * Q)) (model_name : pyval)
  (tasks : pyval) : result (list invocation) :=
  accuracy <- match hdict_get model_name metrics_dict with
              | Some a => Ok a
              | None => Raise (KeyError model_name)
              end ;;
  if Qle_bool THRESHOLD_ACCURACY accuracy then Ok []
  else Ok [call_format_tasks_for_train tasks;
           call_load_model "en" false "" "";
           call_train_model 0 1 30].

(** Lines 207-215: the two local variables are bound to constants. *)
Definition train_model_if_necessary (tasks : pyval)
  : result (list invocation) :=
  let metrics_dict := [(PyStr "dummy", 1 # 2)] in
  let model_name := PyStr "dummy" in
  train_gate metrics_dict model_name tasks.

(** ** An implementation of the interfaces, to run the workflow *)

(** A reader and a writer for JSON texts in ASCII whose numbers are
    integers and whose strings use the two-character escapes only.  On
    such a text [loads] is what [json.loads] computes; a text outside that
    fragment is refused, and no statement below runs it there. *)
Module JsonText.

Definition dquote : ascii := ascii_of_nat 34.
Definition bslash : ascii := ascii_of_nat 92.

Definition is_ws (c : ascii) : bool :=
  match nat_of_ascii c with
  | 32%nat | 9%nat | 10%nat | 13%nat => true
  | _ => false
  end.

Fixpoint skip_ws (s : string) : string :=
  match s with
  | String c rest => if is_ws c then skip_ws rest else s
  | EmptyString => s
  end.

Definition digit (c : ascii) : option Z :=
  let n := Z.of_nat (nat_of_ascii c) in
  if (48 <=? n) && (n <=? 57) then Some (n - 48) else None.

Fixpoint read_digits (s : string) (acc : Z) : Z * string :=
  match s with
  | String c rest =>
      match digit c with
      | Some d => read_digits rest (10 * acc + d)
      | None => (acc, s)
      end
  | EmptyString => (acc, s)
  end.

(** Neither a fraction nor an exponent follows. *)
Definition integer_ends (s : string) : bool :=
  match s with
  | String "." _ | String "e" _ | String "E" _ => false
  | _ => true
  end.

Definition read_nat (s : string) : option (Z * string) :=
  match s with
  | String c rest =>
      match digit c with
      | Some 0 => if integer_ends rest then Some (0, rest) else None
      | Some d =>
          let (n, rest') := read_digits rest d in
          if integer_ends rest' then Some (n, rest') else None
      | None => None
      end
  | EmptyString => None
  end.

Definition unescape (c : ascii) : option ascii :=
  if Ascii.eqb c dquote then Some dquote
  else if Ascii.eqb c bslash then Some bslash
  else match c with
       | "/"%char => Some "/"%char
       | "b"%char => Some (ascii_of_nat 8)
       | "f"%char => Some (ascii_of_nat 12)
       | "n"%char => Some (ascii_of_nat 10)
       | "r"%char => Some (ascii_of_nat 13)
       | "t"%char => Some (ascii_of_nat 9)
       | _ => None
       end.

(** The characters up to the closing quote. *)
Fixpoint read_string (s : string) : option (string * string) :=
  match s with
  | EmptyString => None
  | String c rest =>
      if Ascii.eqb c dquote then Some (EmptyString, rest)
      else if Ascii.eqb c bslash then
        match rest with
        | String e rest' =>
            match unescape e, read_string rest' with
            | Some x, Some (t, after) => Some (String x t, after)
            | _, _ => None
            end
        | EmptyString => None
        end
      else if (nat_of_ascii c <? 32)%nat || (127 <? nat_of_ascii c)%nat then None
      else match read_string rest with
           | Some (t, after) => Some (String c t, after)
           | None => None
           end
  end.

Definition expect (word : string) (v : pyval) (s : string)
  : option (pyval * string) :=
  if String.prefix word s
  then Some (v, String.substring (String.length word)
                  (String.length s - String.length word) s)
  else None.

Section Containers.
Variable parse_value : string -> option (pyval * string).

(** After [[] or a comma: the elements, up to the closing bracket. *)
Fixpoint parse_items (n : nat) (s : string) (acc : list pyval)
  : option (list pyval * string) :=
  match n with
  | O => None
  | S n' =>
      match parse_value s with
      | Some (v, rest) =>
          match skip_ws rest with
          | String "," rest' => parse_items n' rest' (acc ++ [v])
          | String "]" rest' => Some (acc ++ [v], rest')
          | _ => None
          end
      | None => None
      end
  end.

(** After [{] or a comma: the members, up to the closing brace. *)
Fixpoint parse_members (n : nat) (s : string) (acc : list (string * pyval))
  : option (list (string * pyval) * string) :=
  match n with
  | O => None
  | S n' =>
      match skip_ws s with
      | String c rest =>
          if Ascii.eqb c dquote then
            match read_string rest with
            | Some (k, rest1) =>
                match skip_ws rest1 with
                | String ":" rest2 =>
                    match parse_value rest2 with
                    | Some (v, rest3) =>
                        match skip_ws rest3 with
                        | String "," rest4 =>
                            parse_members n' rest4 (dict_set k v acc)
                        | String "}" rest4 => Some (dict_set k v acc, rest4)
                        | _ => None
                        end
                    | None => None
                    end
                | _ => None
                end
            | None => None
            end
          else None
      | EmptyString => None
      end
  end.

End Containers.

Fixpoint parse_value (fuel : nat) (s : string) : option (pyval * string) :=
  match fuel with
  | O => None
  | S fuel' =>
      match skip_ws s with
      | EmptyString => None
      | String c rest =>
          if Ascii.eqb c dquote then
            match read_string rest with
            | Some (t, after) => Some (PyStr t, after)
            | None => None
            end
          else match c with
          | "["%char =>
              match skip_ws rest with
              | String "]" after => Some (PyList [], after)
              | _ =>
                  match parse_items (parse_value fuel') (String.length rest)
                          rest [] with
                  | Some (l, after) => Some (PyList l, after)
                  | None => None
                  end
              end
          | "{"%char =>
              match skip_ws rest with
              | String "}" after => Some (PyDict [], after)
              | _ =>
                  match parse_members (parse_value fuel') (String.length rest)
                          rest [] with
                  | Some (d, after) => Some (PyDict d, after)
                  | None => None
                  end
              end
          | "-"%char =>
              match read_nat rest with
              | Some (n, after) => Some (PyInt (- n), after)
              | None => None
              end
          | "n"%char => expect "null" PyNone (String c rest)
          | "t"%char => expect "true" (PyBool true) (String c rest)
          | "f"%char => expect "false" (PyBool false) (String c rest)
          | _ =>
              match read_nat (String c rest) with
              | Some (n, after) => Some (PyInt n, after)
              | None => None
              end
          end
      end
  end.

Definition loads (s : string) : result pyval :=
  match parse_value (S (String.length s)) s with
  | Some (v, rest) =>
      match skip_ws rest with
      | EmptyString => Ok v
      | _ => Raise JSONDecodeError
      end
  | None => Raise JSONDecodeError
  end.

Definition write_char (c : ascii) : string :=
  if Ascii.eqb c dquote then String bslash (String dquote EmptyString)
  else if Ascii.eqb c bslash then String bslash (String bslash EmptyString)
  else String c EmptyString.

Fixpoint write_chars (s : string) : string :=
  match s with
  | EmptyString => EmptyString
  | String c rest => (write_char c ++ write_chars rest)%string
  end.

Definition quoted (s : string) : string :=
  String dquote (write_chars s ++ String dquote EmptyString)%string.

(** [json.dumps] with its default separators. *)
Fixpoint write (v : pyval) : option string :=
  match v with
  | PyNone => Some "null"
  | PyBool true => Some "true"
  | PyBool false => Some "false"
  | PyInt z => Some (NilZero.string_of_int (Z.to_int z))
  | PyFloat _ | PyBytes _ => None
  | PyStr s => Some (quoted s)
  | PyList l =>
      match
        (fix go (l : list pyval) : option (list string) :=
           match l with
           | [] => Some []
           | x :: rest =>
               match write x, go rest with
               | Some a, Some b => Some (a :: b)
               | _, _ => None
               end
           end) l
      with
      | Some items => Some ("[" ++ String.concat ", " items ++ "]")%string
      | None => None
      end
  | PyDict d =>
      match
        (fix go (d : list (string * pyval)) : option (list string) :=
           match d with
           | [] => Some []
           | (k, x) :: rest =>
               match write x, go rest with
               | Some a, Some b => Some ((quoted k ++ ": " ++ a)%string :: b)
               | _, _ => None
               end
           end) d
      with
      | Some items => Some ("{" ++ String.concat ", " items ++ "}")%string
      | None => None
      end
  end.

Definition dumps (v : pyval) : result string :=
  match write v with
  | Some s => Ok s
  | None => Raise TypeError
  end.

(** Texts below are written with an apostrophe where JSON has a double
    quote. *)
Fixpoint text (s : string) : string :=
  match s with
  | EmptyString => EmptyString
  | String c rest =>
      String (if Ascii.eqb c "'"%char then dquote else c) (text rest)
  end.

End JsonText.

Definition json_text : Json := {|
  loads_str := JsonText.loads;
  loads_bytes := JsonText.loads;
  dumps := JsonText.dumps
|}.

(** A world that keeps the log of the calls made: every directory can be
    made, a download writes the one file asked for, and a model loads
    under the name of its path. *)
Definition logged_runtime : Runtime := {|
  world := list string;
  Language := string;
  mkdir := fun path w => (Ok tt, w ++ [("mkdir " ++ path)%string]);
  download_from_gcs := fun bucket blob folder explicit w =>
    (Ok [(folder ++ "/" ++ blob)%string],
     w ++ [("download " ++ bucket ++ "/" ++ blob)%string]);
  spacy_load := fun name w => (Ok name, w ++ [("load " ++ name)%string])
|}.


(** Batches to run the workflow on. *)
Module Batches.

(** One task, and a prediction of ["dummy"] that matches it. *)
Definition one_hit : string := JsonText.text
  "[{'result': [{'value': {'start': 10, 'end': 17, 'text': 'Chennai', 'labels': ['LOC']}}], 'predictions': [{'result': {'start': 10, 'end': 17, 'text': 'Chennai', 'labels': ['LOC']}, 'model_version': 'dummy'}]}]".

(** The accepted annotation carries an ["id"]. *)
Definition with_id : string := JsonText.text
  "[{'result': [{'value': {'id': 'a1', 'start': 10, 'end': 17, 'labels': ['LOC']}}], 'predictions': [{'result': {'start': 10, 'end': 17, 'labels': ['LOC']}, 'model_version': 'dummy'}]}]".

(** The prediction has no ["result"]. *)
Definition no_payload : string := JsonText.text
  "[{'result': [{'value': {'start': 10, 'end': 17, 'labels': ['LOC']}}], 'predictions': [{'model_version': 'dummy'}]}]".

(** The task has no accepted result. *)
Definition no_result : string := JsonText.text
  "[{'result': [], 'predictions': [{'result': {'start': 1}, 'model_version': 'dummy'}]}]".


(** Two tasks; ["m1"] matches both and ["m2"] the first only. *)
Definition two_tasks : string := JsonText.text
  "[{'result': [{'value': {'start': 1, 'end': 4, 'labels': ['ORG']}}], 'predictions': [{'result': {'start': 1, 'end': 4, 'labels': ['ORG']}, 'model_version': 'm1'}, {'result': {'start': 1, 'end': 4, 'labels': ['ORG']}, 'model_version': 'm2'}]}, {'result': [{'value': {'start': 0, 'end': 5, 'labels': ['LOC']}}], 'predictions': [{'result': {'start': 0, 'end': 5, 'labels': ['LOC']}, 'model_version': 'm1'}, {'result': {'start': 0, 'end': 6, 'labels': ['LOC']}, 'model_version': 'm2'}]}]".

(** Two tasks for the formatter: the first has a span, the second none. *)
Definition for_training : string := JsonText.text
  "[{'task': {'data': {'text': 'Flyte is an organisation.'}}, 'result': [{'value': {'start': 0, 'end': 5, 'labels': ['ORG']}}]}, {'task': {'data': {'text': 'Nothing here.'}}, 'result': []}]".

(** The float [0.8]. *)
Definition accuracy_0_8 : Q := 3602879701896397 # 4503599627370496.

End Batches.

(** ** The models a batch names, and the formatter of the specification *)

Section Specification.
Context {json : Json}.

(** The [model_version] of each prediction of a task. *)
Definition task_models (ls_task : pyval) : list pyval :=
  match (predictions <- ls_task.["predictions"] ;; py_iter predictions) with
  | Ok items =>
      flat_map (fun prediction =>
                  match prediction.["model_version"] with
                  | Ok model => [model]
                  | Raise _ => []
                  end) items
  | Raise _ => []
  end.

Definition batch_models (ls_tasks : list pyval) : list pyval :=
  flat_map task_models ls_tasks.

(** [m in d], for a dict with hashable keys. *)
Definition hdict_mem {V} (k : pyval) (d : list (pyval * V)) : bool :=
  existsb (fun entry => py_eq (fst entry) k) d.

(** [model_hits[k]]: the [defaultdict(int)] reads 0 under a key it
    lacks. *)
Definition hits_of (k : pyval) (model_hits : list (pyval * Z)) : Z :=
  match hdict_get k model_hits with
  | Some n => n
  | None => 0
  end.




(** The formatter as the specification words it: a task with at least
    one accepted span gives the pair of its text and its spans, any other
    task gives nothing. *)
Definition training_example (ls_task : pyval) : list (pyval * list span) :=
  match task_entities ls_task with
  | Ok (e :: es) =>
      match task_text ls_task with
      | Ok text => [(text, e :: es)]
      | Raise _ => []
      end
  | _ => []
  end.

End Specification.

(** The same world over a bucket where the download finds no file. *)
Definition empty_bucket_runtime : Runtime := {|
  world := list string;
  Language := string;
  mkdir := fun path w => (Ok tt, w ++ [("mkdir " ++ path)%string]);
  download_from_gcs := fun bucket blob folder explicit w =>
    (Ok [], w ++ [("download " ++ bucket ++ "/" ++ blob)%string]);
  spacy_load := fun name w => (Ok name, w ++ [("load " ++ name)%string])
|}.

(** ** What the loops compute *)

Section Summaries.

(** The hit that a prediction scores against an accepted annotation; a
    prediction with no payload scores nothing. *)
Definition prediction_hit (annotation_result prediction : pyval) : Z :=
  match prediction.["result"] with
  | Ok payload => Z.b2z (py_eq payload annotation_result)
  | Raise _ => 0
  end.

Definition sum_Z (l : list Z) : Z := fold_right Z.add 0 l.

(** The number of predictions of a task that equal its accepted
    annotation, [ls_task["result"][0]["value"]]. *)
Definition task_matches (ls_task : pyval) : Z :=
  match (results <- ls_task.["result"] ;;
         first <- py_getitem results (PyInt 0) ;;
         first.["value"]),
        (predictions <- ls_task.["predictions"] ;; py_iter predictions) with
  | Ok value, Ok items => sum_Z (map (prediction_hit value) items)
  | _, _ => 0
  end.

Definition hits_total (model_hits : list (pyval * Z)) : Z :=
  sum_Z (map snd model_hits).

(** What lines 84-86 make of [model_hits] when no two keys are equal. *)
Definition accuracies (num_task : Z) (model_hits : list (pyval * Z))
  : list (pyval * Q) :=
  map (fun entry => (fst entry, Qred (inject_Z (snd entry) / inject_Z num_task)))
      model_hits.

Definition is_str (v : pyval) : Prop := exists s, v = PyStr s.

(** The spans that one entry of ["result"] gives: one for each of its
    labels, with the [start] and [end] of the entry, which are read only
    when there is a label. *)
Definition entry_spans (ent : pyval) : result (list span) :=
  value <- ent.["value"] ;;
  labels <- value.["labels"] ;;
  items <- py_iter labels ;;
  match items with
  | [] => Ok []
  | _ =>
      start <- value.["start"] ;;
      stop <- value.["end"] ;;
      Ok (map (fun label => (start, stop, label)) items)
  end.

(** *** Annotation tasks, as the specification describes them *)

(** An accepted entry: its two offsets and its labels. *)
Record accepted_entry : Type := {
  entry_start : pyval;
  entry_end : pyval;
  entry_labels : list pyval
}.

(** An annotation task: its source text and its accepted entries. *)
Record annotation_task : Type := {
  source_text : pyval;
  accepted : list accepted_entry
}.

(** The entity spans of a task: (start, end, label), one for each label
    of each accepted entry. *)
Definition accepted_spans (a : annotation_task) : list span :=
  flat_map (fun e =>
              map (fun label => (entry_start e, entry_end e, label))
                  (entry_labels e))
           (accepted a).

(** The record [ent] of a ["result"] list holds the entry [e]. *)
Definition holds_entry (ent : pyval) (e : accepted_entry) : Prop :=
  exists value labels,
    ent.["value"] = Ok value /\
    value.["labels"] = Ok labels /\
    py_iter labels = Ok (entry_labels e) /\
    value.["start"] = Ok (entry_start e) /\
    value.["end"] = Ok (entry_end e).

(** The record [ls_task] of a batch holds the task [a]. *)
Definition holds_task (ls_task : pyval) (a : annotation_task) : Prop :=
  (exists task data,
      ls_task.["task"] = Ok task /\
      task.["data"] = Ok data /\
      data.["text"] = Ok (source_text a)) /\
  (exists results ents,
      ls_task.["result"] = Ok results /\
      py_iter results = Ok ents /\
      Forall2 holds_entry ents (accepted a)).

(** The (text, spans) pairs of the tasks that have a span. *)
Definition expected_pairs (batch : list annotation_task)
  : list (pyval * list span) :=
  flat_map (fun a =>
              match accepted_spans a with
              | [] => []
              | spans => [(source_text a, spans)]
              end) batch.

(** The value to serialize, as the docstring of [train_model] shows it:
    [[text, {"entities": [[start, end, label], ...]}], ...]. *)
Definition expected_output (batch : list annotation_task) : pyval :=
  PyList
    (map (fun pair =>
            PyList
              [fst pair;
               PyDict
                 [("entities",
                   PyList
                     (map (fun s =>
                             PyList [fst (fst s); snd (fst s); snd s])
                          (snd pair)))]])
         (expected_pairs batch)).

End Summaries.

(** ** Properties *)

Section Properties.
Context {json : Json}.

Lemma bind_ok {A B} (c : result A) (k : A -> result B) (b : B) :
  bind c k = Ok b -> exists a, c = Ok a /\ k a = Ok b.
Proof.
  destruct c as [a|e]; simpl; intro H; [eauto | discriminate].
Qed.

Lemma for_each_app {X S} (l1 l2 : list X) (body : X -> S -> result S) (s : S) :
  for_each (l1 ++ l2) body s = bind (for_each l1 body s) (for_each l2 body).
Proof.
  revert s; induction l1 as [|x l1 IH]; intro s; simpl; [reflexivity|].
  destruct (body x s); simpl; auto.
Qed.

(** [json.loads] takes a text only, and a text has a length. *)
Lemma json_loads_len (tasks parsed : pyval) :
  json_loads tasks = Ok parsed -> exists n, py_len tasks = Ok n /\ 0 <= n.
Proof.
  destruct tasks; simpl; try discriminate; intros _; eexists; split;
    try reflexivity; lia.
Qed.

Lemma dict_pop_length {V} (k : string) (d : list (string * V)) :
  In k (map fst d) -> S (List.length (dict_pop k d)) = List.length d.
Proof.
  induction d as [|[k' v] d IH]; simpl; [tauto|].
  intros [Hk|Hk].
  - subst k'. rewrite String.eqb_refl. reflexivity.
  - destruct (String.eqb k' k); simpl; [reflexivity|].
    rewrite IH by assumption. reflexivity.
Qed.

(** Once the dict has lost a key, the iterator's next step raises. *)
Lemma strip_id_dict_shrunk (keys : list string) (used : nat)
  (d : list (string * pyval)) :
  List.length d <> used -> strip_id_dict keys used d = Raise RuntimeError.
Proof.
  intro H. destruct keys; simpl;
    (destruct (Nat.eqb_spec (List.length d) used); [contradiction|reflexivity]).
Qed.

Lemma strip_id_dict_with_id (keys : list string) (d : list (string * pyval)) :
  In "id" keys -> In "id" (map fst d) ->
  strip_id_dict keys (List.length d) d = Raise RuntimeError.
Proof.
  intros Hk Hd. induction keys as [|key keys IH]; [destruct Hk|].
  simpl. rewrite Nat.eqb_refl. simpl.
  destruct (String.eqb_spec key "id") as [->|Hne].
  - apply strip_id_dict_shrunk.
    pose proof (dict_pop_length "id" d Hd). lia.
  - apply IH. destruct Hk; [contradiction|assumption].
Qed.

Lemma strip_id_dict_without_id (keys : list string) (d : list (string * pyval)) :
  ~ In "id" keys -> strip_id_dict keys (List.length d) d = Ok d.
Proof.
  induction keys as [|key keys IH]; intro Hk; simpl; rewrite Nat.eqb_refl;
    simpl; [reflexivity|].
  destruct (String.eqb_spec key "id") as [->|Hne].
  - exfalso. apply Hk. left. reflexivity.
  - apply IH. intro H. apply Hk. right. assumption.
Qed.

(** The loop of lines 76-78 never hands back a changed annotation: it
    either leaves it as it is or raises. *)
Lemma strip_id_ok (v v' : pyval) : strip_id v = Ok v' -> v' = v.
Proof.
  destruct v; simpl; try discriminate.
  - destruct (existsb _ _); [discriminate|]. congruence.
  - destruct (existsb _ _); [discriminate|]. congruence.
  - destruct (existsb _ _); [discriminate|]. congruence.
  - destruct (in_dec string_dec "id" (map fst d)) as [Hin|Hout].
    + rewrite strip_id_dict_with_id by assumption. discriminate.
    + rewrite strip_id_dict_without_id by assumption. simpl. congruence.
Qed.

Lemma ner_hits_split (tasks parsed : pyval) (before after : list pyval)
  (ls_task : pyval) :
  json_loads tasks = Ok parsed ->
  py_iter parsed = Ok (before ++ ls_task :: after) ->
  ner_hits tasks =
    (model_hits <- for_each before count_task [] ;;
     model_hits' <- count_task ls_task model_hits ;;
     for_each after count_task model_hits').
Proof.
  intros Hl Hi. unfold ner_hits. rewrite Hl. simpl. rewrite Hi. simpl.
  rewrite for_each_app. reflexivity.
Qed.

(** C3, as amended.  A batch with no task gives the empty mapping, and
    no error: the division of line 85 runs once for each model met in a
    prediction, and no prediction has been met. *)
Theorem evaluate_ner_empty_batch (tasks : pyval) :
  json_loads tasks = Ok (PyList []) -> evaluate_ner tasks = Ok [].
Proof.
  intro H. unfold evaluate_ner, ner_hits. rewrite H. simpl.
  destruct (json_loads_len _ _ H) as [n [Hn _]]. rewrite Hn. reflexivity.
Qed.

(** C10.  A task whose ["result"] list is empty keeps the evaluator from
    giving a mapping: the evaluation raises, and what it raises when the
    tasks before that one have been counted is the [IndexError] of
    [ls_task["result"][0]]. *)
Theorem evaluate_ner_empty_result_list
  (tasks parsed : pyval) (before after : list pyval) (ls_task : pyval) :
  json_loads tasks = Ok parsed ->
  py_iter parsed = Ok (before ++ ls_task :: after) ->
  ls_task.["result"] = Ok (PyList []) ->
  (exists e, evaluate_ner tasks = Raise e) /\
  (forall model_hits,
      for_each before count_task [] = Ok model_hits ->
      evaluate_ner tasks = Raise IndexError).
Proof.
  intros Hl Hi Hr.
  assert (Hc : forall h, count_task ls_task h = Raise IndexError).
  { intro h. unfold count_task. rewrite Hr. reflexivity. }
  unfold evaluate_ner. rewrite (ner_hits_split _ _ _ _ _ Hl Hi). split.
  - destruct (for_each before count_task []) as [h|e]; simpl.
    + rewrite Hc. simpl. eauto.
    + eauto.
  - intros h Hb. rewrite Hb. simpl. rewrite Hc. reflexivity.
Qed.

(** C4.  When the accepted annotation of a task has an ["id"] key, the
    loop of lines 76-78 pops it while it iterates over the same dict, and
    the evaluation stops there with the [RuntimeError] of the iterator
    (dictionary changed size during iteration). *)
Theorem evaluate_ner_id_field_raises
  (tasks parsed : pyval) (before after : list pyval) (ls_task : pyval)
  (model_hits : list (pyval * Z)) (results first : pyval)
  (annotation : list (string * pyval)) :
  json_loads tasks = Ok parsed ->
  py_iter parsed = Ok (before ++ ls_task :: after) ->
  for_each before count_task [] = Ok model_hits ->
  ls_task.["result"] = Ok results ->
  py_getitem results (PyInt 0) = Ok first ->
  first.["value"] = Ok (PyDict annotation) ->
  In "id" (map fst annotation) ->
  evaluate_ner tasks = Raise RuntimeError.
Proof.
  intros Hl Hi Hb Hr H0 Hv Hid.
  unfold evaluate_ner. rewrite (ner_hits_split _ _ _ _ _ Hl Hi), Hb. simpl.
  unfold count_task. rewrite Hr. simpl. rewrite H0. simpl. rewrite Hv. simpl.
  rewrite strip_id_dict_with_id by assumption. reflexivity.
Qed.

(** *** The keys of [model_hits] and of [model_acc] *)

Lemma hits_add_keys (k : pyval) (x : Z) (h : list (pyval * Z)) (k0 : pyval) :
  In k0 (map fst (hits_add k x h)) -> k0 = k \/ In k0 (map fst h).
Proof.
  induction h as [|[k' n] h IH]; simpl.
  - intros [H|[]]; auto.
  - destruct (py_eq k' k); simpl; intros [H|H]; auto.
    destruct (IH H); auto.
Qed.

Lemma hdict_set_entries {V} (k : pyval) (v : V) (d : list (pyval * V))
  (k0 : pyval) (v0 : V) :
  In (k0, v0) (hdict_set k v d) -> v0 = v \/ In (k0, v0) d.
Proof.
  induction d as [|[k' v'] d IH]; simpl.
  - intros [H|[]]. inversion H. auto.
  - destruct (py_eq k' k); simpl; intros [H|H]; auto.
    + inversion H. auto.
    + destruct (IH H); auto.
Qed.

Lemma hdict_set_keys {V} (k : pyval) (v : V) (d : list (pyval * V))
  (k0 : pyval) :
  In k0 (map fst (hdict_set k v d)) -> k0 = k \/ In k0 (map fst d).
Proof.
  induction d as [|[k' v'] d IH]; simpl.
  - intros [H|[]]; auto.
  - destruct (py_eq k' k); simpl; intros [H|H]; auto.
    destruct (IH H); auto.
Qed.

Lemma count_prediction_keys (ann prediction : pyval)
  (h h' : list (pyval * Z)) (k : pyval) :
  count_prediction ann prediction h = Ok h' ->
  In k (map fst h') ->
  In k (map fst h) \/ prediction.["model_version"] = Ok k.
Proof.
  unfold count_prediction. intros H Hk.
  apply bind_ok in H. destruct H as [mv [Hmv H]].
  destruct (py_hashable mv); [|discriminate].
  apply bind_ok in H. destruct H as [payload [_ H]].
  inversion H; subst h'; clear H.
  apply hits_add_keys in Hk. destruct Hk as [->|Hk]; auto.
Qed.

Lemma count_predictions_keys (ann : pyval) (items : list pyval)
  (h h' : list (pyval * Z)) (k : pyval) :
  for_each items (count_prediction ann) h = Ok h' ->
  In k (map fst h') ->
  In k (map fst h) \/
  In k (flat_map (fun prediction =>
                    match prediction.["model_version"] with
                    | Ok model => [model]
                    | Raise _ => []
                    end) items).
Proof.
  revert h. induction items as [|p items IH]; simpl; intros h H Hk.
  - inversion H; subst. auto.
  - apply bind_ok in H. destruct H as [h1 [H1 H]].
    destruct (IH _ H Hk) as [Hk1|Hk1].
    + destruct (count_prediction_keys _ _ _ _ _ H1 Hk1) as [Hh|Hp]; auto.
      right. rewrite Hp. simpl. auto.
    + right. apply in_or_app. auto.
Qed.

Lemma count_task_keys (ls_task : pyval) (h h' : list (pyval * Z)) (k : pyval) :
  count_task ls_task h = Ok h' ->
  In k (map fst h') -> In k (map fst h) \/ In k (task_models ls_task).
Proof.
  unfold count_task, task_models. intros H Hk.
  apply bind_ok in H. destruct H as [results [_ H]].
  apply bind_ok in H. destruct H as [first [_ H]].
  apply bind_ok in H. destruct H as [value [_ H]].
  apply bind_ok in H. destruct H as [ann [_ H]].
  apply bind_ok in H. destruct H as [predictions [Hp H]].
  apply bind_ok in H. destruct H as [items [Hi H]].
  rewrite Hp. simpl. rewrite Hi.
  eapply count_predictions_keys; eassumption.
Qed.

Lemma count_tasks_keys (ls_tasks : list pyval) (h h' : list (pyval * Z))
  (k : pyval) :
  for_each ls_tasks count_task h = Ok h' ->
  In k (map fst h') -> In k (map fst h) \/ In k (batch_models ls_tasks).
Proof.
  revert h. induction ls_tasks as [|t ls_tasks IH]; simpl; intros h H Hk.
  - inversion H; subst. auto.
  - apply bind_ok in H. destruct H as [h1 [H1 H]].
    destruct (IH _ H Hk) as [Hk1|Hk1].
    + destruct (count_task_keys _ _ _ _ H1 Hk1); auto.
      right. apply in_or_app. auto.
    + right. apply in_or_app. auto.
Qed.

(** Each accuracy stored is the quotient of an entry of [model_hits] by
    [num_task], under a key of [model_hits]. *)
Lemma store_acc_entries (num_task : Z) (model_hits : list (pyval * Z))
  (acc0 acc : list (pyval * Q)) :
  for_each model_hits (store_acc num_task) acc0 = Ok acc ->
  (forall k, In k (map fst acc) ->
             In k (map fst acc0) \/ In k (map fst model_hits)) /\
  (forall k a, In (k, a) acc ->
               In (k, a) acc0 \/
               exists k' n, In (k', n) model_hits /\ num_task <> 0 /\
                            a = Qred (inject_Z n / inject_Z num_task)).
Proof.
  revert acc0. induction model_hits as [|[k' n] model_hits IH]; simpl;
    intros acc0 H.
  - inversion H; subst. auto.
  - apply bind_ok in H. destruct H as [acc1 [H1 H]].
    unfold store_acc, py_truediv in H1.
    destruct (Z.eqb_spec num_task 0) as [|Hnz]; [discriminate|].
    simpl in H1. inversion H1; subst acc1; clear H1.
    destruct (IH _ H) as [IHk IHe]. split.
    + intros k Hk. destruct (IHk k Hk) as [Hk1|Hk1]; auto.
      apply hdict_set_keys in Hk1. destruct Hk1; auto.
    + intros k a Hka. destruct (IHe k a Hka) as [Hk1|[k2 [n2 [Hin Hq]]]].
      * apply hdict_set_entries in Hk1. destruct Hk1 as [->|]; auto.
        right. exists k', n. auto.
      * right. exists k2, n2. auto.
Qed.

Lemma hdict_mem_in {V} (k : pyval) (d : list (pyval * V)) :
  hdict_mem k d = true -> exists k', In k' (map fst d) /\ py_eq k' k = true.
Proof.
  unfold hdict_mem. intro H. apply existsb_exists in H.
  destruct H as [[k' v] [Hin Heq]]. exists k'. split; [|assumption].
  apply in_map_iff. exists (k', v). auto.
Qed.

(** C7.  A model that no prediction of the batch names (no
    [model_version] equal to it) is not a key of the mapping returned:
    [model in model_acc] is false. *)
Theorem evaluate_ner_absent_model
  (tasks parsed : pyval) (ls_tasks : list pyval)
  (model_acc : list (pyval * Q)) (model : pyval) :
  json_loads tasks = Ok parsed ->
  py_iter parsed = Ok ls_tasks ->
  evaluate_ner tasks = Ok model_acc ->
  existsb (fun named => py_eq named model) (batch_models ls_tasks) = false ->
  hdict_mem model model_acc = false.
Proof.
  intros Hl Hi He Hno.
  destruct (hdict_mem model model_acc) eqn:Hm; [|reflexivity].
  exfalso. apply hdict_mem_in in Hm. destruct Hm as [k [Hk Heq]].
  unfold evaluate_ner in He.
  apply bind_ok in He. destruct He as [h [Hh He]].
  apply bind_ok in He. destruct He as [n [_ He]].
  apply store_acc_entries in He. destruct He as [Hkeys _].
  destruct (Hkeys k Hk) as [[]|Hk1].
  unfold ner_hits in Hh. rewrite Hl in Hh. simpl in Hh. rewrite Hi in Hh.
  simpl in Hh.
  destruct (count_tasks_keys _ _ _ _ Hh Hk1) as [[]|Hk2].
  assert (Hex : existsb (fun named => py_eq named model)
                  (batch_models ls_tasks) = true).
  { apply existsb_exists. exists k. auto. }
  congruence.
Qed.

(** *** A prediction that misses *)

Lemma hits_add_zero (k k0 : pyval) (h : list (pyval * Z)) :
  hits_of k0 (hits_add k 0 h) = hits_of k0 h.
Proof.
  unfold hits_of. induction h as [|[k' n] h IH]; simpl.
  - destruct (py_eq k k0); reflexivity.
  - destruct (py_eq k' k) eqn:E; simpl.
    + destruct (py_eq k' k0); [lia|reflexivity].
    + destruct (py_eq k' k0); [reflexivity|apply IH].
Qed.

(** C5, as amended.  A prediction whose ["result"] is there and differs
    from the accepted annotation is a miss: no counter changes, nothing
    is raised, and the loop goes on with the predictions that follow.  A
    prediction with no ["result"] key raises [KeyError]. *)
Theorem count_prediction_mismatch
  (ann prediction : pyval) (rest : list pyval) (h : list (pyval * Z)) :
  (forall model_version payload,
      prediction.["model_version"] = Ok model_version ->
      py_hashable model_version = true ->
      prediction.["result"] = Ok payload ->
      py_eq payload ann = false ->
      exists h',
        count_prediction ann prediction h = Ok h' /\
        (forall k, hits_of k h' = hits_of k h) /\
        for_each (prediction :: rest) (count_prediction ann) h =
        for_each rest (count_prediction ann) h') /\
  (forall d model_version,
      prediction = PyDict d ->
      dict_get "model_version" d = Some model_version ->
      py_hashable model_version = true ->
      dict_get "result" d = None ->
      count_prediction ann prediction h = Raise (KeyError (PyStr "result"))).
Proof.
  split.
  - intros mv payload Hmv Hh Hp Hne.
    exists (hits_add mv 0 h).
    assert (Hc : count_prediction ann prediction h = Ok (hits_add mv 0 h)).
    { unfold count_prediction. rewrite Hmv. simpl. rewrite Hh, Hp. simpl.
      rewrite Hne. reflexivity. }
    split; [exact Hc|]. split.
    + intro k. apply hits_add_zero.
    + simpl. rewrite Hc. reflexivity.
  - intros d mv -> Hmv Hh Hr.
    unfold count_prediction. simpl. rewrite Hmv. simpl. rewrite Hh, Hr.
    reflexivity.
Qed.

(** *** The denominator and the bounds *)



(** *** The formatter *)

Lemma training_example_in (ls_task text : pyval) (spans : list span) :
  In (text, spans) (training_example ls_task) <->
  task_entities ls_task = Ok spans /\ spans <> [] /\
  task_text ls_task = Ok text.
Proof.
  unfold training_example.
  destruct (task_entities ls_task) as [[|e es]|err].
  - simpl. split; [tauto|]. intros [H [Hne _]]. inversion H. congruence.
  - destruct (task_text ls_task) as [text'|err]; simpl.
    + split.
      * intros [H|[]]. inversion H; subst. repeat split. discriminate.
      * intros [H [_ Ht]]. inversion H; inversion Ht; subst. auto.
    + split; [tauto|]. intros [_ [_ H]]. discriminate.
  - simpl. split; [tauto|]. intros [H _]. discriminate.
Qed.

Lemma format_tasks_acc (ls_tasks : list pyval) :
  (forall t, In t ls_tasks ->
             exists spans, task_entities t = Ok spans /\
                           (spans <> [] -> exists text, task_text t = Ok text)) ->
  forall train_data,
    for_each ls_tasks format_task train_data =
    Ok (train_data ++ flat_map training_example ls_tasks).
Proof.
  induction ls_tasks as [|t ls_tasks IH]; intros Hok train_data; simpl.
  - rewrite app_nil_r. reflexivity.
  - destruct (Hok t (or_introl eq_refl)) as [spans [Hs Ht]].
    unfold format_task at 1. unfold training_example at 1. rewrite Hs. simpl.
    destruct spans as [|e es].
    + simpl. apply IH. intros t' Hin. apply Hok. right. assumption.
    + destruct Ht as [text Ht]; [discriminate|]. rewrite Ht. simpl.
      rewrite IH by (intros t' Hin; apply Hok; right; assumption).
      rewrite <- app_assoc. reflexivity.
Qed.

End Properties.

(** *** The model loader *)

Section LoaderProperties.
Context {rt : Runtime}.

(** C9.  With [from_gcs=True], [load_model] never returns a model; and
    when the directory is made, the download gives a file and that file
    loads, the second [spacy.load] of line 156 reads [model_name], which
    only the other branch binds: the call raises [UnboundLocalError]. *)
Theorem load_model_from_gcs_unbound
  (lang gcs_bucket gcs_source_blob_name : string) (w : world) :
  (forall loaded w',
      load_model lang true gcs_bucket gcs_source_blob_name w <> (Ok loaded, w')) /\
  (forall w1 files w2 output_filename loaded w3,
      mkdir "tmp" w = (Ok tt, w1) ->
      download_from_gcs gcs_bucket gcs_source_blob_name "tmp" true w1
        = (Ok files, w2) ->
      seq_item files 0 = Ok output_filename ->
      spacy_load output_filename w2 = (Ok loaded, w3) ->
      load_model lang true gcs_bucket gcs_source_blob_name w
        = (Raise (UnboundLocalError "model_name"), w3)).
Proof.
  unfold load_model, load_model_branch, mbind, lift, ret, raise. split.
  - intros loaded w'.
    destruct (mkdir "tmp" w) as [[[]|e] w1]; [|discriminate].
    destruct (download_from_gcs gcs_bucket gcs_source_blob_name "tmp" true w1)
      as [[files|e] w2]; [|discriminate].
    destruct (seq_item files 0) as [name|e]; [|discriminate].
    destruct (spacy_load name w2) as [[m|e] w3]; simpl; discriminate.
  - intros w1 files w2 name loaded w3 H1 H2 H3 H4.
    rewrite H1, H2, H3, H4. reflexivity.
Qed.

End LoaderProperties.

(** *** The training gate *)

(** C2, as amended.  [train_model_if_necessary] takes the tasks alone:
    the mapping it looks into is the constant [{"dummy": 0.5}] and the
    model the constant ["dummy"], so that every call invokes the
    formatter, [load_model] and [train_model] with 30 iterations, once
    each.  The [if] it runs skips the three calls when the accuracy looked
    up is at least the threshold, and makes them once otherwise. *)
Theorem train_gate_branch (tasks : pyval) :
  train_model_if_necessary tasks =
    Ok [call_format_tasks_for_train tasks;
        call_load_model "en" false "" "";
        call_train_model 0 1 30] /\
  (forall metrics_dict model_name accuracy,
      hdict_get model_name metrics_dict = Some accuracy ->
      ((THRESHOLD_ACCURACY <= accuracy)%Q ->
       train_gate metrics_dict model_name tasks = Ok []) /\
      ((accuracy < THRESHOLD_ACCURACY)%Q ->
       train_gate metrics_dict model_name tasks =
         Ok [call_format_tasks_for_train tasks;
             call_load_model "en" false "" "";
             call_train_model 0 1 30])).
Proof.
  split; [reflexivity|].
  intros metrics_dict model_name accuracy Hget. unfold train_gate.
  rewrite Hget. simpl. split; intro H.
  - apply Qle_bool_iff in H. rewrite H. reflexivity.
  - destruct (Qle_bool THRESHOLD_ACCURACY accuracy) eqn:E; [|reflexivity].
    apply Qle_bool_iff in E. exfalso. apply (Qlt_not_le _ _ H). exact E.
Qed.

(** ** Further properties of the evaluator *)

Section EvaluatorProperties.
Context {json : Json}.

(** X1.  On a dict, the loop of lines 76-78 has two outcomes only: it
    returns the dict as it was when the dict has no ["id"] key, and it
    raises [RuntimeError] when it has one.  It never returns a dict
    without its ["id"]. *)
Theorem strip_id_on_dict (d : list (string * pyval)) :
  (~ In "id" (map fst d) -> strip_id (PyDict d) = Ok (PyDict d)) /\
  (In "id" (map fst d) -> strip_id (PyDict d) = Raise RuntimeError) /\
  (forall v, strip_id (PyDict d) = Ok v ->
             v = PyDict d /\ dict_get "id" d = None).
Proof.
  assert (Hout : ~ In "id" (map fst d) -> strip_id (PyDict d) = Ok (PyDict d)).
  { intro H. simpl. rewrite strip_id_dict_without_id by assumption.
    reflexivity. }
  assert (Hin : In "id" (map fst d) -> strip_id (PyDict d) = Raise RuntimeError).
  { intro H. simpl. rewrite strip_id_dict_with_id by assumption.
    reflexivity. }
  split; [exact Hout|]. split; [exact Hin|].
  intros v Hv. destruct (in_dec string_dec "id" (map fst d)) as [H|H].
  - rewrite (Hin H) in Hv. discriminate.
  - rewrite (Hout H) in Hv. inversion Hv. split; [reflexivity|].
    clear - H. induction d as [|[k x] d IH]; simpl; [reflexivity|].
    destruct (String.eqb_spec k "id") as [->|Hne].
    + exfalso. apply H. left. reflexivity.
    + apply IH. intro Hd. apply H. right. assumption.
Qed.

(** *** The total of the counters *)

Lemma hits_add_total (k : pyval) (x : Z) (h : list (pyval * Z)) :
  hits_total (hits_add k x h) = hits_total h + x.
Proof.
  unfold hits_total, sum_Z. induction h as [|[k' n] h IH]; simpl; [lia|].
  destruct (py_eq k' k); simpl; lia.
Qed.

Lemma count_predictions_total (ann : pyval) (items : list pyval)
  (h h' : list (pyval * Z)) :
  for_each items (count_prediction ann) h = Ok h' ->
  hits_total h' = hits_total h + sum_Z (map (prediction_hit ann) items).
Proof.
  revert h. induction items as [|p items IH]; simpl; intros h H.
  - inversion H; subst. lia.
  - apply bind_ok in H. destruct H as [h1 [H1 H]].
    rewrite (IH _ H). unfold count_prediction in H1.
    apply bind_ok in H1. destruct H1 as [mv [_ H1]].
    destruct (py_hashable mv); [|discriminate].
    apply bind_ok in H1. destruct H1 as [payload [Hp H1]].
    inversion H1; subst h1. rewrite hits_add_total.
    unfold prediction_hit at 2. rewrite Hp. lia.
Qed.

Lemma count_task_total (ls_task : pyval) (h h' : list (pyval * Z)) :
  count_task ls_task h = Ok h' ->
  hits_total h' = hits_total h + task_matches ls_task.
Proof.
  unfold count_task, task_matches. intro H.
  apply bind_ok in H. destruct H as [results [Hr H]].
  apply bind_ok in H. destruct H as [first [Hf H]].
  apply bind_ok in H. destruct H as [value [Hv H]].
  apply bind_ok in H. destruct H as [ann [Ha H]].
  apply bind_ok in H. destruct H as [predictions [Hp H]].
  apply bind_ok in H. destruct H as [items [Hi H]].
  apply strip_id_ok in Ha. subst ann.
  rewrite Hr. simpl. rewrite Hf. simpl. rewrite Hv, Hp. simpl. rewrite Hi.
  apply count_predictions_total. assumption.
Qed.

Lemma count_tasks_total (ls_tasks : list pyval) (h h' : list (pyval * Z)) :
  for_each ls_tasks count_task h = Ok h' ->
  hits_total h' = hits_total h + sum_Z (map task_matches ls_tasks).
Proof.
  revert h. induction ls_tasks as [|t ls_tasks IH]; simpl; intros h H.
  - inversion H; subst. lia.
  - apply bind_ok in H. destruct H as [h1 [H1 H]].
    rewrite (IH _ H), (count_task_total _ _ _ H1). lia.
Qed.

Lemma task_matches_nonneg (ls_task : pyval) : 0 <= task_matches ls_task.
Proof.
  unfold task_matches.
  destruct (_ <- ls_task.["result"] ;; _) as [value|]; [|lia].
  destruct (_ <- ls_task.["predictions"] ;; _) as [items|]; [|lia].
  unfold sum_Z. induction items as [|p items IH]; cbn [map fold_right]; [lia|].
  assert (0 <= prediction_hit value p); [|lia].
  unfold prediction_hit.
  destruct (p.["result"]) as [payload|]; [|lia].
  destruct (py_eq payload value); simpl; lia.
Qed.

(** X2.  When the first loop completes, the counters of [model_hits]
    add up to the number of predictions of the batch that equal the
    accepted annotation of their task: every match is counted once, under
    one model, and nothing else is. *)
Theorem ner_hits_total
  (tasks parsed : pyval) (ls_tasks : list pyval) (model_hits : list (pyval * Z)) :
  json_loads tasks = Ok parsed ->
  py_iter parsed = Ok ls_tasks ->
  ner_hits tasks = Ok model_hits ->
  hits_total model_hits = sum_Z (map task_matches ls_tasks).
Proof.
  intros Hl Hi Hh. unfold ner_hits in Hh. rewrite Hl in Hh. simpl in Hh.
  rewrite Hi in Hh. simpl in Hh.
  rewrite (count_tasks_total _ _ _ Hh). reflexivity.
Qed.

(** *** The models that get an accuracy *)

Lemma py_eq_str (k : pyval) (s : string) :
  py_eq k (PyStr s) = true -> k = PyStr s.
Proof.
  destruct k; simpl; try discriminate.
  intro H. apply String.eqb_eq in H. congruence.
Qed.

Lemma hits_add_has_key (s : string) (x : Z) (h : list (pyval * Z)) :
  In (PyStr s) (map fst (hits_add (PyStr s) x h)).
Proof.
  induction h as [|[k' n] h IH]; simpl; [auto|].
  destruct (py_eq k' (PyStr s)) eqn:E; simpl; [|auto].
  left. apply py_eq_str. assumption.
Qed.

Lemma hits_add_keeps_keys (k : pyval) (x : Z) (h : list (pyval * Z))
  (k0 : pyval) :
  In k0 (map fst h) -> In k0 (map fst (hits_add k x h)).
Proof.
  induction h as [|[k' n] h IH]; simpl; [tauto|].
  destruct (py_eq k' k); simpl; intros [H|H]; auto.
Qed.

Lemma count_predictions_has_keys (ann : pyval) (items : list pyval)
  (h h' : list (pyval * Z)) (s : string) :
  for_each items (count_prediction ann) h = Ok h' ->
  In (PyStr s) (map fst h) \/
  In (PyStr s) (flat_map (fun prediction =>
                            match prediction.["model_version"] with
                            | Ok model => [model]
                            | Raise _ => []
                            end) items) ->
  In (PyStr s) (map fst h').
Proof.
  revert h. induction items as [|p items IH]; simpl; intros h H Hs.
  - inversion H; subst. destruct Hs as [Hs|[]]. assumption.
  - apply bind_ok in H. destruct H as [h1 [H1 H]].
    apply (IH _ H). unfold count_prediction in H1.
    apply bind_ok in H1. destruct H1 as [mv [Hmv H1]].
    destruct (py_hashable mv); [|discriminate].
    apply bind_ok in H1. destruct H1 as [payload [_ H1]].
    inversion H1; subst h1; clear H1.
    rewrite Hmv in Hs. simpl in Hs.
    destruct Hs as [Hs|[Hs|Hs]].
    + left. apply hits_add_keeps_keys. assumption.
    + left. subst mv. apply hits_add_has_key.
    + right. assumption.
Qed.

Lemma count_task_has_keys (ls_task : pyval) (h h' : list (pyval * Z))
  (s : string) :
  count_task ls_task h = Ok h' ->
  In (PyStr s) (map fst h) \/ In (PyStr s) (task_models ls_task) ->
  In (PyStr s) (map fst h').
Proof.
  unfold count_task, task_models. intros H Hs.
  apply bind_ok in H. destruct H as [results [_ H]].
  apply bind_ok in H. destruct H as [first [_ H]].
  apply bind_ok in H. destruct H as [value [_ H]].
  apply bind_ok in H. destruct H as [ann [_ H]].
  apply bind_ok in H. destruct H as [predictions [Hp H]].
  apply bind_ok in H. destruct H as [items [Hi H]].
  rewrite Hp in Hs. simpl in Hs. rewrite Hi in Hs.
  eapply count_predictions_has_keys; eassumption.
Qed.

Lemma count_tasks_has_keys (ls_tasks : list pyval) (h h' : list (pyval * Z))
  (s : string) :
  for_each ls_tasks count_task h = Ok h' ->
  In (PyStr s) (map fst h) \/ In (PyStr s) (batch_models ls_tasks) ->
  In (PyStr s) (map fst h').
Proof.
  revert h. induction ls_tasks as [|t ls_tasks IH]; simpl; intros h H Hs.
  - inversion H; subst. destruct Hs as [Hs|[]]. assumption.
  - apply bind_ok in H. destruct H as [h1 [H1 H]].
    apply (IH _ H). destruct Hs as [Hs|Hs].
    + left. apply (count_task_has_keys _ _ _ _ H1). left. assumption.
    + apply in_app_or in Hs. destruct Hs as [Hs|Hs].
      * left. apply (count_task_has_keys _ _ _ _ H1). right. assumption.
      * right. assumption.
Qed.

Lemma hdict_set_has_key {V} (s : string) (v : V) (d : list (pyval * V)) :
  In (PyStr s) (map fst (hdict_set (PyStr s) v d)).
Proof.
  induction d as [|[k' v'] d IH]; simpl; [auto|].
  destruct (py_eq k' (PyStr s)) eqn:E; simpl; [|auto].
  left. apply py_eq_str. assumption.
Qed.

Lemma hdict_set_keeps_keys {V} (k : pyval) (v : V) (d : list (pyval * V))
  (k0 : pyval) :
  In k0 (map fst d) -> In k0 (map fst (hdict_set k v d)).
Proof.
  induction d as [|[k' v'] d IH]; simpl; [tauto|].
  destruct (py_eq k' k); simpl; intros [H|H]; auto.
Qed.

Lemma store_acc_has_keys (num_task : Z) (model_hits : list (pyval * Z))
  (acc0 acc : list (pyval * Q)) (s : string) :
  for_each model_hits (store_acc num_task) acc0 = Ok acc ->
  In (PyStr s) (map fst acc0) \/ In (PyStr s) (map fst model_hits) ->
  In (PyStr s) (map fst acc).
Proof.
  revert acc0. induction model_hits as [|[k n] model_hits IH]; simpl;
    intros acc0 H Hs.
  - inversion H; subst. destruct Hs as [Hs|[]]. assumption.
  - apply bind_ok in H. destruct H as [acc1 [H1 H]].
    apply (IH _ H). unfold store_acc in H1.
    apply bind_ok in H1. destruct H1 as [a [_ H1]].
    inversion H1; subst acc1; clear H1.
    destruct Hs as [Hs|[Hs|Hs]].
    + left. apply hdict_set_keeps_keys. assumption.
    + left. subst k. apply hdict_set_has_key.
    + right. assumption.
Qed.

(** X3.  When the evaluation returns, every model that a prediction of
    the batch names by a string is a key of the mapping returned, also a
    model whose predictions all miss: the counter is created before the
    comparison is made. *)
Theorem evaluate_ner_named_model
  (tasks parsed : pyval) (ls_tasks : list pyval)
  (model_acc : list (pyval * Q)) (model : string) :
  json_loads tasks = Ok parsed ->
  py_iter parsed = Ok ls_tasks ->
  evaluate_ner tasks = Ok model_acc ->
  In (PyStr model) (batch_models ls_tasks) ->
  hdict_mem (PyStr model) model_acc = true.
Proof.
  intros Hl Hi He Hm. unfold evaluate_ner in He.
  apply bind_ok in He. destruct He as [h [Hh He]].
  apply bind_ok in He. destruct He as [n [_ He]].
  unfold ner_hits in Hh. rewrite Hl in Hh. simpl in Hh. rewrite Hi in Hh.
  simpl in Hh.
  assert (Hk : In (PyStr model) (map fst h)).
  { apply (count_tasks_has_keys _ _ _ _ Hh). right. assumption. }
  assert (Ha : In (PyStr model) (map fst model_acc)).
  { apply (store_acc_has_keys _ _ _ _ _ He). right. assumption. }
  unfold hdict_mem. apply existsb_exists.
  apply in_map_iff in Ha. destruct Ha as [[k a] [Hfst Hin]].
  exists (k, a). split; [assumption|]. simpl in *. subst k.
  simpl. apply String.eqb_refl.
Qed.

(** *** The second loop *)



(** *** The mapping returned *)

Lemma hits_add_str_keys (s : string) (x : Z) (h : list (pyval * Z)) :
  Forall is_str (map fst h) -> NoDup (map fst h) ->
  Forall is_str (map fst (hits_add (PyStr s) x h)) /\
  NoDup (map fst (hits_add (PyStr s) x h)).
Proof.
  induction h as [|[k' n] h IH]; simpl; intros Hs Hd.
  - split; constructor; auto. exists s. reflexivity.
  - inversion Hs as [|? ? [s' Hk] Hs']; subst. inversion Hd; subst.
    simpl. destruct (String.eqb_spec s' s) as [->|Hne]; simpl.
    + split; assumption.
    + destruct (IH Hs' H2) as [IHs IHd]. split.
      * constructor; [exists s'; reflexivity|assumption].
      * constructor; [|assumption]. intro Hin.
        apply hits_add_keys in Hin. destruct Hin as [Heq|Hin].
        -- inversion Heq. contradiction.
        -- contradiction.
Qed.

Lemma count_predictions_str_keys (ann : pyval) (items : list pyval)
  (h h' : list (pyval * Z)) :
  Forall is_str (flat_map (fun prediction =>
                             match prediction.["model_version"] with
                             | Ok model => [model]
                             | Raise _ => []
                             end) items) ->
  for_each items (count_prediction ann) h = Ok h' ->
  Forall is_str (map fst h) -> NoDup (map fst h) ->
  Forall is_str (map fst h') /\ NoDup (map fst h').
Proof.
  revert h. induction items as [|p items IH]; simpl; intros h Hm H Hs Hd.
  - inversion H; subst. auto.
  - apply bind_ok in H. destruct H as [h1 [H1 H]].
    unfold count_prediction in H1.
    apply bind_ok in H1. destruct H1 as [mv [Hmv H1]].
    destruct (py_hashable mv); [|discriminate].
    apply bind_ok in H1. destruct H1 as [payload [_ H1]].
    inversion H1; subst h1; clear H1.
    rewrite Hmv in Hm. simpl in Hm. inversion Hm as [|? ? [s Hmvs] Hm'].
    subst. destruct (hits_add_str_keys s (Z.b2z (py_eq payload ann)) h Hs Hd)
      as [Hs1 Hd1].
    apply (IH _ Hm' H Hs1 Hd1).
Qed.

Lemma count_task_str_keys (ls_task : pyval) (h h' : list (pyval * Z)) :
  Forall is_str (task_models ls_task) ->
  count_task ls_task h = Ok h' ->
  Forall is_str (map fst h) -> NoDup (map fst h) ->
  Forall is_str (map fst h') /\ NoDup (map fst h').
Proof.
  unfold count_task, task_models. intros Hm H.
  apply bind_ok in H. destruct H as [results [_ H]].
  apply bind_ok in H. destruct H as [first [_ H]].
  apply bind_ok in H. destruct H as [value [_ H]].
  apply bind_ok in H. destruct H as [ann [_ H]].
  apply bind_ok in H. destruct H as [predictions [Hp H]].
  apply bind_ok in H. destruct H as [items [Hi H]].
  rewrite Hp in Hm. simpl in Hm. rewrite Hi in Hm.
  eapply count_predictions_str_keys; eassumption.
Qed.

Lemma count_tasks_str_keys (ls_tasks : list pyval) (h h' : list (pyval * Z)) :
  Forall is_str (batch_models ls_tasks) ->
  for_each ls_tasks count_task h = Ok h' ->
  Forall is_str (map fst h) -> NoDup (map fst h) ->
  Forall is_str (map fst h') /\ NoDup (map fst h').
Proof.
  revert h. induction ls_tasks as [|t ls_tasks IH]; simpl; intros h Hm H Hs Hd.
  - inversion H; subst. auto.
  - apply bind_ok in H. destruct H as [h1 [H1 H]].
    apply Forall_app in Hm. destruct Hm as [Hmt Hmr].
    destruct (count_task_str_keys _ _ _ Hmt H1 Hs Hd) as [Hs1 Hd1].
    apply (IH _ Hmr H Hs1 Hd1).
Qed.

Lemma hdict_set_fresh {V} (s : string) (v : V) (d : list (pyval * V)) :
  Forall is_str (map fst d) -> ~ In (PyStr s) (map fst d) ->
  hdict_set (PyStr s) v d = d ++ [(PyStr s, v)].
Proof.
  induction d as [|[k' v'] d IH]; simpl; intros Hs Hout; [reflexivity|].
  inversion Hs as [|? ? [s' Hk] Hs']; subst. simpl.
  destruct (String.eqb_spec s' s) as [->|Hne].
  - exfalso. apply Hout. left. reflexivity.
  - rewrite IH; [reflexivity|assumption|]. intro H. apply Hout. right.
    assumption.
Qed.

Lemma store_acc_accuracies (num_task : Z) (model_hits : list (pyval * Z)) :
  num_task <> 0 ->
  forall acc0,
    Forall is_str (map fst acc0) -> Forall is_str (map fst model_hits) ->
    NoDup (map fst acc0 ++ map fst model_hits) ->
    for_each model_hits (store_acc num_task) acc0 =
    Ok (acc0 ++ accuracies num_task model_hits).
Proof.
  intro Hn. induction model_hits as [|[k n] model_hits IH];
    intros acc0 Hs0 Hs Hd; cbn [for_each].
  - unfold accuracies. simpl. rewrite app_nil_r. reflexivity.
  - simpl in Hs. inversion Hs as [|? ? [s Hk] Hs']; subst.
    assert (Hout : ~ In (PyStr s) (map fst acc0)).
    { intro Hin. simpl in Hd. apply NoDup_remove_2 in Hd. apply Hd.
      apply in_or_app. left. assumption. }
    assert (E : store_acc num_task (PyStr s, n) acc0 =
                Ok (acc0 ++ [(PyStr s,
                              Qred (inject_Z n / inject_Z num_task))])).
    { unfold store_acc, py_truediv.
      destruct (Z.eqb_spec num_task 0) as [|_]; [contradiction|].
      cbn [bind]. rewrite hdict_set_fresh by assumption. reflexivity. }
    rewrite E. cbn [bind]. rewrite IH.
    + rewrite <- app_assoc. reflexivity.
    + rewrite map_app. apply Forall_app. split; [assumption|].
      constructor; [exists s; reflexivity|constructor].
    + assumption.
    + rewrite map_app. rewrite <- app_assoc. exact Hd.
Qed.

(** X5.  When every model that the predictions of the batch name is a
    string and the evaluation returns, the mapping returned has one entry
    for each counter of [model_hits], in the same order, and its value is
    that counter divided by [len(tasks)]; no model has two counters. *)
Theorem evaluate_ner_accuracies
  (tasks parsed : pyval) (ls_tasks : list pyval)
  (model_hits : list (pyval * Z)) (num_task : Z)
  (model_acc : list (pyval * Q)) :
  json_loads tasks = Ok parsed ->
  py_iter parsed = Ok ls_tasks ->
  Forall is_str (batch_models ls_tasks) ->
  ner_hits tasks = Ok model_hits ->
  py_len tasks = Ok num_task ->
  evaluate_ner tasks = Ok model_acc ->
  model_acc = accuracies num_task model_hits /\
  NoDup (map fst model_hits).
Proof.
  intros Hl Hi Hm Hh Hn He.
  assert (Hkeys : Forall is_str (map fst model_hits) /\
                  NoDup (map fst model_hits)).
  { unfold ner_hits in Hh. rewrite Hl in Hh. simpl in Hh. rewrite Hi in Hh.
    simpl in Hh.
    apply (count_tasks_str_keys ls_tasks [] model_hits Hm Hh);
      constructor. }
  destruct Hkeys as [Hs Hd]. split; [|exact Hd].
  unfold evaluate_ner in He. rewrite Hh in He. cbn [bind] in He.
  rewrite Hn in He. cbn [bind] in He.
  destruct (Z.eq_dec num_task 0) as [E|Hnz].
  - subst num_task. destruct model_hits as [|[k n] rest].
    + inversion He. reflexivity.
    + discriminate.
  - rewrite (store_acc_accuracies num_task model_hits Hnz []) in He;
      [|constructor|assumption|assumption].
    inversion He. reflexivity.
Qed.

(** *** Each counter *)

Lemma hits_add_nonneg (k : pyval) (x : Z) (h : list (pyval * Z)) :
  0 <= x ->
  Forall (fun entry => 0 <= snd entry) h ->
  Forall (fun entry => 0 <= snd entry) (hits_add k x h).
Proof.
  intro Hx. induction 1 as [|[k' n] h Hn Hrest IH]; simpl.
  - constructor; [simpl; lia|constructor].
  - simpl in Hn. destruct (py_eq k' k); constructor; simpl; auto; lia.
Qed.

Lemma count_predictions_nonneg (ann : pyval) (items : list pyval)
  (h h' : list (pyval * Z)) :
  for_each items (count_prediction ann) h = Ok h' ->
  Forall (fun entry => 0 <= snd entry) h ->
  Forall (fun entry => 0 <= snd entry) h'.
Proof.
  revert h. induction items as [|p items IH]; simpl; intros h H Hh.
  - inversion H; subst. assumption.
  - apply bind_ok in H. destruct H as [h1 [H1 H]].
    apply (IH _ H). unfold count_prediction in H1.
    apply bind_ok in H1. destruct H1 as [mv [_ H1]].
    destruct (py_hashable mv); [|discriminate].
    apply bind_ok in H1. destruct H1 as [payload [_ H1]].
    inversion H1; subst h1. apply hits_add_nonneg; [|assumption].
    destruct (py_eq payload ann); simpl; lia.
Qed.

Lemma count_tasks_nonneg (ls_tasks : list pyval) (h h' : list (pyval * Z)) :
  for_each ls_tasks count_task h = Ok h' ->
  Forall (fun entry => 0 <= snd entry) h ->
  Forall (fun entry => 0 <= snd entry) h'.
Proof.
  revert h. induction ls_tasks as [|t ls_tasks IH]; simpl; intros h H Hh.
  - inversion H; subst. assumption.
  - apply bind_ok in H. destruct H as [h1 [H1 H]].
    apply (IH _ H). unfold count_task in H1.
    apply bind_ok in H1. destruct H1 as [results [_ H1]].
    apply bind_ok in H1. destruct H1 as [first [_ H1]].
    apply bind_ok in H1. destruct H1 as [value [_ H1]].
    apply bind_ok in H1. destruct H1 as [ann [_ H1]].
    apply bind_ok in H1. destruct H1 as [predictions [_ H1]].
    apply bind_ok in H1. destruct H1 as [items [_ H1]].
    eapply count_predictions_nonneg; eassumption.
Qed.

Lemma entry_le_total (h : list (pyval * Z)) (k : pyval) (n : Z) :
  Forall (fun entry => 0 <= snd entry) h ->
  In (k, n) h -> n <= hits_total h.
Proof.
  unfold hits_total, sum_Z.
  induction 1 as [|[k' n'] h Hn Hrest IH]; simpl; [tauto|].
  assert (H0 : 0 <= fold_right Z.add 0 (map snd h)).
  { clear - Hrest. induction Hrest as [|[k1 n1] h Hn1 Hr IH]; simpl in *; lia. }
  simpl in Hn. intros [Heq|Hin].
  - inversion Heq; subst. lia.
  - specialize (IH Hin). lia.
Qed.

(** X12.  Whatever the batch, no counter of [model_hits] is negative,
    and none exceeds the number of predictions of the batch that equal
    the accepted annotation of their task. *)
Theorem ner_hits_counter_bounds
  (tasks parsed : pyval) (ls_tasks : list pyval) (model_hits : list (pyval * Z)) :
  json_loads tasks = Ok parsed ->
  py_iter parsed = Ok ls_tasks ->
  ner_hits tasks = Ok model_hits ->
  forall k n, In (k, n) model_hits ->
              0 <= n <= sum_Z (map task_matches ls_tasks).
Proof.
  intros Hl Hi Hh k n Hin.
  assert (Hnn : Forall (fun entry => 0 <= snd entry) model_hits).
  { unfold ner_hits in Hh. rewrite Hl in Hh. simpl in Hh. rewrite Hi in Hh.
    simpl in Hh. apply (count_tasks_nonneg _ _ _ Hh). constructor. }
  split.
  - rewrite Forall_forall in Hnn. apply (Hnn _ Hin).
  - unfold ner_hits in Hh. rewrite Hl in Hh. simpl in Hh. rewrite Hi in Hh.
    simpl in Hh. pose proof (count_tasks_total _ _ _ Hh) as Ht.
    pose proof (entry_le_total _ _ _ Hnn Hin) as Hle.
    change (hits_total []) with 0 in Ht. lia.
Qed.


(** *** The counters and the batch size *)












(** *** The matches and the predictions *)





End EvaluatorProperties.

(** ** Further properties of the formatter *)

Section FormatterProperties.
Context {json : Json}.

Lemma add_labels_spans (ent value start stop : pyval) (items : list pyval) :
  ent.["value"] = Ok value ->
  value.["start"] = Ok start ->
  value.["end"] = Ok stop ->
  forall entities,
    for_each items (add_label ent) entities =
    Ok (entities ++ map (fun label => (start, stop, label)) items).
Proof.
  intros Hv Hs He. induction items as [|label items IH]; intro entities;
    cbn [for_each map].
  - rewrite app_nil_r. reflexivity.
  - unfold add_label at 1. rewrite Hv. cbn [bind]. rewrite Hs. cbn [bind].
    rewrite He. cbn [bind]. rewrite IH. rewrite <- app_assoc. reflexivity.
Qed.

Lemma add_ent_spans (ent : pyval) (entities : list span) :
  add_ent ent entities = (spans <- entry_spans ent ;; Ok (entities ++ spans)).
Proof.
  unfold add_ent, entry_spans.
  destruct (ent.["value"]) as [value|e] eqn:Hv; [|reflexivity]. cbn [bind].
  destruct (value.["labels"]) as [labels|e]; [|reflexivity]. cbn [bind].
  destruct (py_iter labels) as [[|label items]|e]; [| |reflexivity];
    cbn [bind].
  - simpl. rewrite app_nil_r. reflexivity.
  - destruct (value.["start"]) as [start|e] eqn:Hs.
    + destruct (value.["end"]) as [stop|e] eqn:He.
      * cbn [bind].
        apply (add_labels_spans ent value start stop _ Hv Hs He).
      * cbn [for_each bind]. unfold add_label. rewrite Hv. cbn [bind].
        rewrite Hs. cbn [bind]. rewrite He. reflexivity.
    + cbn [for_each bind]. unfold add_label. rewrite Hv. cbn [bind].
      rewrite Hs. reflexivity.
Qed.

Lemma add_ents_spans (ents : list pyval) (spans : list (list span)) :
  Forall2 (fun ent es => entry_spans ent = Ok es) ents spans ->
  forall entities,
    for_each ents add_ent entities = Ok (entities ++ List.concat spans).
Proof.
  induction 1 as [|ent es ents spans Hent Hrest IH]; intro entities;
    cbn [for_each List.concat].
  - rewrite app_nil_r. reflexivity.
  - rewrite add_ent_spans, Hent. cbn [bind]. rewrite IH.
    rewrite <- app_assoc. reflexivity.
Qed.

(** X6.  The spans of a task are those of the entries of its
    ["result"], entry after entry: an entry gives one span for each of
    its labels, with its own [start] and [end], and an entry with no label
    gives none, whether or not it has a [start] and an [end]. *)
Theorem task_entities_spans
  (ls_task results : pyval) (ents : list pyval) (spans : list (list span)) :
  ls_task.["result"] = Ok results ->
  py_iter results = Ok ents ->
  Forall2 (fun ent es => entry_spans ent = Ok es) ents spans ->
  task_entities ls_task = Ok (List.concat spans).
Proof.
  intros Hr Hi Hs. unfold task_entities. rewrite Hr. cbn [bind].
  rewrite Hi. cbn [bind]. rewrite (add_ents_spans _ _ Hs []). reflexivity.
Qed.

Lemma format_tasks_returns (ls_tasks : list pyval) :
  forall train_data out,
    for_each ls_tasks format_task train_data = Ok out ->
    out = train_data ++ flat_map training_example ls_tasks /\
    (forall t, In t ls_tasks ->
               exists spans, task_entities t = Ok spans /\
                             (spans <> [] -> exists text, task_text t = Ok text)).
Proof.
  induction ls_tasks as [|t ls_tasks IH]; intros train_data out H;
    cbn [for_each] in H.
  - inversion H; subst. simpl. rewrite app_nil_r. split; [reflexivity|].
    intros t [].
  - apply bind_ok in H. destruct H as [td1 [H1 H]].
    destruct (IH _ _ H) as [Hout Hall]. unfold format_task in H1.
    apply bind_ok in H1. destruct H1 as [spans [Hs H1]].
    assert (Ht : spans <> [] -> exists text, task_text t = Ok text).
    { intro Hne. destruct spans as [|e es]; [contradiction|].
      apply bind_ok in H1. destruct H1 as [text [Htext _]]. eauto. }
    split.
    + cbn [flat_map]. unfold training_example at 1. rewrite Hs.
      destruct spans as [|e es].
      * inversion H1; subst td1. exact Hout.
      * apply bind_ok in H1. destruct H1 as [text [Htext H1]].
        inversion H1; subst td1. rewrite Htext. rewrite Hout.
        rewrite <- app_assoc. reflexivity.
    + intros t' [<-|Hin]; [eauto|apply Hall; assumption].
Qed.

Lemma training_example_spans (ls_task : pyval) :
  Forall (fun ex => snd ex <> []) (training_example ls_task) /\
  (List.length (training_example ls_task) <= 1)%nat.
Proof.
  unfold training_example.
  destruct (task_entities ls_task) as [[|e es]|err]; simpl; auto.
  destruct (task_text ls_task) as [text|err]; simpl; auto.
  split; [|lia]. constructor; [discriminate|constructor].
Qed.

(** X7.  Whenever the formatter gets to the end of the batch, every
    task of the batch had spans that could be read, and a text when it
    had a span; the list it has built holds the pairs of the tasks with a
    span, in the order of the batch, none of them with an empty list of
    spans, and so has at most as many pairs as the batch has tasks. *)
Theorem train_data_of_returns
  (tasks parsed : pyval) (ls_tasks : list pyval)
  (train_data : list (pyval * list span)) :
  json_loads tasks = Ok parsed ->
  py_iter parsed = Ok ls_tasks ->
  train_data_of tasks = Ok train_data ->
  train_data = flat_map training_example ls_tasks /\
  Forall (fun ex => snd ex <> []) train_data /\
  (List.length train_data <= List.length ls_tasks)%nat /\
  (forall t, In t ls_tasks ->
             exists spans, task_entities t = Ok spans /\
                           (spans <> [] -> exists text, task_text t = Ok text)).
Proof.
  intros Hl Hi H. unfold train_data_of in H. rewrite Hl in H. cbn [bind] in H.
  rewrite Hi in H. cbn [bind] in H.
  destruct (format_tasks_returns _ _ _ H) as [Hout Hall].
  simpl in Hout. subst train_data. split; [reflexivity|].
  split; [|split; [|exact Hall]].
  - apply Forall_forall. intros ex Hin. apply in_flat_map in Hin.
    destruct Hin as [t [_ Hin]].
    destruct (training_example_spans t) as [Hne _].
    rewrite Forall_forall in Hne. apply Hne. assumption.
  - clear. induction ls_tasks as [|t ls_tasks IH]; simpl; [lia|].
    rewrite length_app.
    destruct (training_example_spans t) as [_ Hle]. lia.
Qed.

(** *** The formatter against the specification *)

Lemma holds_entry_spans (ent : pyval) (e : accepted_entry) :
  holds_entry ent e ->
  entry_spans ent =
  Ok (map (fun label => (entry_start e, entry_end e, label)) (entry_labels e)).
Proof.
  intros [value [labels [Hv [Hl [Hi [Hs He]]]]]].
  unfold entry_spans. rewrite Hv. cbn [bind]. rewrite Hl. cbn [bind].
  rewrite Hi. cbn [bind]. destruct (entry_labels e) as [|label rest].
  - reflexivity.
  - rewrite Hs. cbn [bind]. rewrite He. reflexivity.
Qed.

Lemma holds_task_entities (ls_task : pyval) (a : annotation_task) :
  holds_task ls_task a -> task_entities ls_task = Ok (accepted_spans a).
Proof.
  intros [_ [results [ents [Hr [Hi Hents]]]]].
  unfold task_entities. rewrite Hr. cbn [bind]. rewrite Hi. cbn [bind].
  unfold accepted_spans. rewrite flat_map_concat_map.
  rewrite (add_ents_spans ents
             (map (fun e =>
                     map (fun label => (entry_start e, entry_end e, label))
                         (entry_labels e)) (accepted a))).
  - reflexivity.
  - clear - Hents. generalize dependent (accepted a). intros es Hents.
    induction Hents as [|ent e ents es Hent Hrest IH]; cbn [map];
      constructor.
    + apply holds_entry_spans. assumption.
    + assumption.
Qed.

Lemma holds_task_text (ls_task : pyval) (a : annotation_task) :
  holds_task ls_task a -> task_text ls_task = Ok (source_text a).
Proof.
  intros [[task [data [Ht [Hd Hx]]]] _].
  unfold task_text. rewrite Ht. cbn [bind]. rewrite Hd. cbn [bind]. exact Hx.
Qed.

Lemma holds_task_of (ls_tasks : list pyval) (batch : list annotation_task)
  (t : pyval) :
  Forall2 holds_task ls_tasks batch -> In t ls_tasks ->
  exists a, In a batch /\ holds_task t a.
Proof.
  induction 1 as [|t' a ls_tasks batch Ht Hrest IH]; intro Hin.
  - destruct Hin.
  - destruct Hin as [Heq|Hin].
    + subst t'. exists a. split; [left; reflexivity|assumption].
    + destruct (IH Hin) as [a' [Ha' Hh]]. exists a'.
      split; [right; assumption|assumption].
Qed.

Lemma holds_tasks_examples (ls_tasks : list pyval)
  (batch : list annotation_task) :
  Forall2 holds_task ls_tasks batch ->
  flat_map training_example ls_tasks = expected_pairs batch.
Proof.
  unfold expected_pairs.
  induction 1 as [|t a ls_tasks batch Ht Hrest IH]; cbn [flat_map];
    [reflexivity|].
  rewrite IH. f_equal. unfold training_example.
  rewrite (holds_task_entities _ _ Ht), (holds_task_text _ _ Ht).
  destruct (accepted_spans a); reflexivity.
Qed.

Lemma example_values (train_data : list (pyval * list span)) :
  map example_value train_data =
  map (fun pair =>
         PyList
           [fst pair;
            PyDict
              [("entities",
                PyList
                  (map (fun s => PyList [fst (fst s); snd (fst s); snd s])
                       (snd pair)))]])
      train_data.
Proof.
  apply map_ext. intros [text spans]. unfold example_value. cbn [fst snd].
  assert (E : map span_value spans =
              map (fun s => PyList [fst (fst s); snd (fst s); snd s]) spans).
  { apply map_ext. intros [[start stop] label]. reflexivity. }
  rewrite E. reflexivity.
Qed.

(** C6.  On a batch of annotation tasks, the formatter builds, in the
    order of the batch, one pair for each task that has at least one
    accepted entity span, made of the text of that task and of its spans
    (start, end, label), and nothing for a task without a span; what it
    returns is [json.dumps] of the list of
    [[text, {"entities": [[start, end, label], ...]}]] that these pairs
    give. *)
Theorem format_tasks_for_train_output
  (tasks parsed : pyval) (ls_tasks : list pyval)
  (batch : list annotation_task) :
  json_loads tasks = Ok parsed ->
  py_iter parsed = Ok ls_tasks ->
  Forall2 holds_task ls_tasks batch ->
  train_data_of tasks = Ok (expected_pairs batch) /\
  format_tasks_for_train tasks =
    (text <- dumps (expected_output batch) ;; Ok (PyStr text)) /\
  (forall text spans,
      In (text, spans) (expected_pairs batch) <->
      exists a, In a batch /\ source_text a = text /\
                accepted_spans a = spans /\ spans <> []).
Proof.
  intros Hl Hi Hb.
  assert (Htd : train_data_of tasks = Ok (expected_pairs batch)).
  { unfold train_data_of. rewrite Hl. cbn [bind]. rewrite Hi. cbn [bind].
    rewrite format_tasks_acc.
    - rewrite (holds_tasks_examples _ _ Hb). reflexivity.
    - intros t Hin.
      destruct (holds_task_of _ _ _ Hb Hin) as [a [_ Ha]].
      exists (accepted_spans a). split; [apply holds_task_entities; assumption|].
      intros _. exists (source_text a). apply holds_task_text. assumption. }
  split; [exact Htd|]. split.
  - unfold format_tasks_for_train, expected_output. rewrite Htd. cbn [bind].
    rewrite example_values. reflexivity.
  - intros text spans. unfold expected_pairs. rewrite in_flat_map. split.
    + intros [a [Hin Hex]]. exists a. split; [assumption|].
      destruct (accepted_spans a) as [|s rest] eqn:E; [destruct Hex|].
      destruct Hex as [Hex|[]]. inversion Hex; subst.
      repeat split. discriminate.
    + intros [a [Hin [Ht [Hs Hne]]]]. exists a. split; [assumption|].
      rewrite Hs. destruct spans as [|s rest]; [contradiction|].
      left. rewrite Ht. reflexivity.
Qed.

End FormatterProperties.

(** ** Further properties of the loader *)

Section RuntimeProperties.
Context {rt : Runtime}.

(** X8.  Without [from_gcs], [load_model] makes one call, the load of
    the pretrained model of the language: for ["en"] it is what
    [spacy.load("en_core_web_sm")] gives, and for any other language it
    raises [KeyError] on [SPACY_MODEL] and leaves the world as it was.
    The bucket and the blob play no part. *)
Theorem load_model_pretrained
  (lang gcs_bucket gcs_source_blob_name : string) (w : world) :
  (lang = "en" ->
   load_model lang false gcs_bucket gcs_source_blob_name w
   = spacy_load "en_core_web_sm" w) /\
  (lang <> "en" ->
   load_model lang false gcs_bucket gcs_source_blob_name w
   = (Raise (KeyError (PyStr lang)), w)).
Proof.
  unfold load_model, load_model_branch, mbind, lift, ret, raise. split.
  - intros ->. simpl.
    destruct (spacy_load "en_core_web_sm" w) as [[m|e] w']; reflexivity.
  - intro Hne. unfold SPACY_MODEL. cbn [dict_get].
    destruct (String.eqb_spec "en" lang) as [E|_].
    + exfalso. apply Hne. symmetry. assumption.
    + reflexivity.
Qed.

(** X9.  With [from_gcs], a download that gives no file makes
    [load_model] raise [IndexError] at [[0]], in the world the download
    has left: no model is loaded. *)
Theorem load_model_from_gcs_no_file
  (lang gcs_bucket gcs_source_blob_name : string) (w w1 w2 : world) :
  mkdir "tmp" w = (Ok tt, w1) ->
  download_from_gcs gcs_bucket gcs_source_blob_name "tmp" true w1
    = (Ok [], w2) ->
  load_model lang true gcs_bucket gcs_source_blob_name w
    = (Raise IndexError, w2).
Proof.
  intros H1 H2.
  unfold load_model, load_model_branch, mbind, lift, ret, raise.
  rewrite H1, H2. reflexivity.
Qed.

End RuntimeProperties.

(** ** The workflow run on the batches *)

#[local] Existing Instance json_text.
#[local] Existing Instance logged_runtime.

(** Names the value that [json.loads] gives for [tasks]. *)
Ltac read_batch tasks Hl :=
  let parsed := fresh "parsed" in
  let Hp := fresh "Hp" in
  destruct (json_loads tasks) as [parsed|] eqn:Hl;
  [ pose proof Hl as Hp; vm_compute in Hp; injection Hp as <-
  | vm_compute in Hl; discriminate ].

(** C1.  On a batch of one task that ["dummy"] predicts exactly, the
    hit count is 1 and the accuracy returned is 1/208: line 83 takes
    [len(tasks)] of the text given to [json.loads], 208 characters here,
    where the batch has one task. *)
Theorem evaluate_ner_divides_by_text_length :
  (exists ls_task, json_loads (PyStr Batches.one_hit) = Ok (PyList [ls_task])) /\
  ner_hits (PyStr Batches.one_hit) = Ok [(PyStr "dummy", 1)] /\
  py_len (PyStr Batches.one_hit) = Ok 208 /\
  evaluate_ner (PyStr Batches.one_hit) = Ok [(PyStr "dummy", 1 # 208)] /\
  evaluate_ner (PyList []) = Raise TypeError.
Proof.
  split; [eexists; vm_compute; reflexivity|].
  repeat split; vm_compute; reflexivity.
Qed.

Lemma train_gate_ignores_accuracy :
  hdict_get (PyStr "dummy") [(PyStr "dummy", Batches.accuracy_0_8)]
    = Some Batches.accuracy_0_8 /\
  (THRESHOLD_ACCURACY <= Batches.accuracy_0_8)%Q /\
  train_model_if_necessary (PyBytes Batches.one_hit) <> Ok [].
Proof.
  split; [reflexivity|]. split; [|discriminate].
  unfold Qle. simpl. lia.
Qed.

Lemma train_gate_branch_witness :
  train_gate [(PyStr "dummy", Batches.accuracy_0_8)] (PyStr "dummy")
    (PyBytes Batches.one_hit) = Ok [] /\
  train_gate [(PyStr "dummy", 1 # 2)] (PyStr "dummy")
    (PyBytes Batches.one_hit) =
    Ok [call_format_tasks_for_train (PyBytes Batches.one_hit);
        call_load_model "en" false "" "";
        call_train_model 0 1 30].
Proof.
  split.
  - apply (proj1 (proj2 (train_gate_branch (PyBytes Batches.one_hit))
                    [(PyStr "dummy", Batches.accuracy_0_8)] (PyStr "dummy")
                    Batches.accuracy_0_8 eq_refl)).
    unfold Qle. simpl. lia.
  - apply (proj2 (proj2 (train_gate_branch (PyBytes Batches.one_hit))
                    [(PyStr "dummy", 1 # 2)] (PyStr "dummy")
                    (1 # 2) eq_refl)).
    unfold Qlt. simpl. lia.
Defined.

Lemma empty_batch_returns_normally :
  json_loads (PyBytes "[]") = Ok (PyList []) /\
  evaluate_ner (PyBytes "[]") <> Raise ZeroDivisionError /\
  evaluate_ner (PyList []) <> Raise ZeroDivisionError.
Proof.
  split; [vm_compute; reflexivity|]. split; vm_compute; discriminate.
Qed.

Lemma evaluate_ner_empty_batch_witness :
  json_loads (PyBytes "[]") = Ok (PyList []) /\
  evaluate_ner (PyBytes "[]") = Ok [].
Proof.
  split; [vm_compute; reflexivity|].
  apply evaluate_ner_empty_batch. vm_compute. reflexivity.
Defined.

Lemma evaluate_ner_id_field_raises_witness :
  evaluate_ner (PyStr Batches.with_id) = Raise RuntimeError.
Proof.
  eapply (evaluate_ner_id_field_raises (PyStr Batches.with_id) _ [] []).
  - vm_compute. reflexivity.
  - reflexivity.
  - reflexivity.
  - reflexivity.
  - reflexivity.
  - reflexivity.
  - simpl. left. reflexivity.
Defined.

Lemma missing_payload_raises :
  evaluate_ner (PyStr Batches.no_payload) = Raise (KeyError (PyStr "result")).
Proof.
  vm_compute. reflexivity.
Qed.

Lemma count_prediction_mismatch_witness :
  (exists h',
      count_prediction (PyDict [("start", PyInt 10)])
        (PyDict [("result", PyDict [("start", PyInt 11)]);
                 ("model_version", PyStr "dummy")])
        [(PyStr "dummy", 3)] = Ok h' /\
      (forall k, hits_of k h' = hits_of k [(PyStr "dummy", 3)]) /\
      for_each
        [PyDict [("result", PyDict [("start", PyInt 11)]);
                 ("model_version", PyStr "dummy")]]
        (count_prediction (PyDict [("start", PyInt 10)]))
        [(PyStr "dummy", 3)] = for_each [] (count_prediction (PyDict [("start", PyInt 10)])) h') /\
  count_prediction (PyDict [("start", PyInt 10)])
    (PyDict [("model_version", PyStr "dummy")]) [(PyStr "dummy", 3)]
  = Raise (KeyError (PyStr "result")).
Proof.
  split.
  - apply (proj1 (count_prediction_mismatch (PyDict [("start", PyInt 10)])
                    (PyDict [("result", PyDict [("start", PyInt 11)]);
                             ("model_version", PyStr "dummy")])
                    [] [(PyStr "dummy", 3)])
             (PyStr "dummy") (PyDict [("start", PyInt 11)])
             eq_refl eq_refl eq_refl eq_refl).
  - apply (proj2 (count_prediction_mismatch (PyDict [("start", PyInt 10)])
                    (PyDict [("model_version", PyStr "dummy")])
                    [] [(PyStr "dummy", 3)])
             [("model_version", PyStr "dummy")] (PyStr "dummy")
             eq_refl eq_refl eq_refl eq_refl).
Defined.

Lemma evaluate_ner_absent_model_witness :
  exists model_acc,
    evaluate_ner (PyStr Batches.two_tasks) = Ok model_acc /\
    hdict_mem (PyStr "m3") model_acc = false.
Proof.
  eexists. split; [vm_compute; reflexivity|].
  eapply (evaluate_ner_absent_model (PyStr Batches.two_tasks)).
  - vm_compute. reflexivity.
  - reflexivity.
  - vm_compute. reflexivity.
  - vm_compute. reflexivity.
Defined.


Lemma load_model_from_gcs_unbound_witness :
  load_model "en" true "wcgl_data" "spacy_model/models/dummy.pkl" []
  = (Raise (UnboundLocalError "model_name"),
     ["mkdir tmp"; "download wcgl_data/spacy_model/models/dummy.pkl";
      "load tmp/spacy_model/models/dummy.pkl"]).
Proof.
  eapply (proj2 (load_model_from_gcs_unbound (rt := logged_runtime)
                   "en" "wcgl_data" "spacy_model/models/dummy.pkl" [])).
  - reflexivity.
  - reflexivity.
  - reflexivity.
  - reflexivity.
Defined.

Lemma evaluate_ner_empty_result_list_witness :
  evaluate_ner (PyStr Batches.no_result) = Raise IndexError.
Proof.
  read_batch (PyStr Batches.no_result) Hl.
  exact (proj2 (evaluate_ner_empty_result_list _ _ [] [] _ Hl eq_refl eq_refl)
           [] eq_refl).
Defined.

Lemma strip_id_on_dict_witness :
  strip_id (PyDict [("start", PyInt 10); ("end", PyInt 17)])
    = Ok (PyDict [("start", PyInt 10); ("end", PyInt 17)]) /\
  strip_id (PyDict [("start", PyInt 10); ("id", PyStr "a1")])
    = Raise RuntimeError.
Proof.
  split.
  - apply (proj1 (strip_id_on_dict [("start", PyInt 10); ("end", PyInt 17)])).
    simpl. intros [H|[H|[]]]; discriminate.
  - apply (proj1 (proj2 (strip_id_on_dict
                           [("start", PyInt 10); ("id", PyStr "a1")]))).
    simpl. right. left. reflexivity.
Defined.

Lemma ner_hits_total_witness :
  hits_total [(PyStr "m1", 2); (PyStr "m2", 1)] = 3.
Proof.
  read_batch (PyStr Batches.two_tasks) Hl.
  refine (eq_trans (ner_hits_total (PyStr Batches.two_tasks) _ _
                      [(PyStr "m1", 2); (PyStr "m2", 1)] Hl eq_refl _) _).
  - vm_compute. reflexivity.
  - vm_compute. reflexivity.
Defined.

Lemma evaluate_ner_named_model_witness :
  hdict_mem (PyStr "m2") [(PyStr "m1", 1 # 241); (PyStr "m2", 1 # 482)] = true.
Proof.
  read_batch (PyStr Batches.two_tasks) Hl.
  apply (evaluate_ner_named_model (PyStr Batches.two_tasks) _ _
           [(PyStr "m1", 1 # 241); (PyStr "m2", 1 # 482)] "m2" Hl eq_refl).
  - vm_compute. reflexivity.
  - vm_compute. auto.
Defined.


Lemma evaluate_ner_accuracies_witness :
  [(PyStr "m1", 1 # 241); (PyStr "m2", 1 # 482)]
    = accuracies 482 [(PyStr "m1", 2); (PyStr "m2", 1)] /\
  NoDup [PyStr "m1"; PyStr "m2"].
Proof.
  read_batch (PyStr Batches.two_tasks) Hl.
  apply (evaluate_ner_accuracies (PyStr Batches.two_tasks) _ _
           [(PyStr "m1", 2); (PyStr "m2", 1)] 482
           [(PyStr "m1", 1 # 241); (PyStr "m2", 1 # 482)] Hl eq_refl).
  - vm_compute. repeat constructor; eexists; reflexivity.
  - vm_compute. reflexivity.
  - vm_compute. reflexivity.
  - vm_compute. reflexivity.
Defined.

Lemma task_entities_spans_witness :
  task_entities
    (PyDict [("result",
              PyList [PyDict [("value",
                               PyDict [("start", PyInt 0); ("end", PyInt 5);
                                       ("labels",
                                        PyList [PyStr "ORG"; PyStr "LOC"])])];
                      PyDict [("value", PyDict [("labels", PyList [])])]])])
  = Ok [(PyInt 0, PyInt 5, PyStr "ORG"); (PyInt 0, PyInt 5, PyStr "LOC")].
Proof.
  eapply (task_entities_spans _ _ _
            [[(PyInt 0, PyInt 5, PyStr "ORG"); (PyInt 0, PyInt 5, PyStr "LOC")];
             []]).
  - reflexivity.
  - reflexivity.
  - repeat constructor.
Defined.

Lemma train_data_of_returns_witness :
  [(PyStr "Flyte is an organisation.", [(PyInt 0, PyInt 5, PyStr "ORG")])]
    = flat_map training_example
        [PyDict [("task",
                  PyDict [("data",
                           PyDict [("text", PyStr "Flyte is an organisation.")])]);
                 ("result",
                  PyList [PyDict [("value",
                                   PyDict [("start", PyInt 0); ("end", PyInt 5);
                                           ("labels", PyList [PyStr "ORG"])])]])];
         PyDict [("task",
                  PyDict [("data", PyDict [("text", PyStr "Nothing here.")])]);
                 ("result", PyList [])]].
Proof.
  read_batch (PyBytes Batches.for_training) Hl.
  refine (proj1 (train_data_of_returns (PyBytes Batches.for_training) _ _ _
                   Hl eq_refl _)).
  vm_compute. reflexivity.
Defined.

Lemma load_model_pretrained_witness :
  load_model "en" false "" "" []
    = (Ok "en_core_web_sm", ["load en_core_web_sm"]) /\
  load_model "fr" false "" "" [] = (Raise (KeyError (PyStr "fr")), []).
Proof.
  split.
  - refine (eq_trans (proj1 (load_model_pretrained (rt := logged_runtime)
                               "en" "" "" []) eq_refl) eq_refl).
  - apply (proj2 (load_model_pretrained (rt := logged_runtime) "fr" "" "" [])).
    discriminate.
Defined.

Lemma load_model_from_gcs_no_file_witness :
  load_model (rt := empty_bucket_runtime) "en" true "wcgl_data" "models" []
    = (Raise IndexError, ["mkdir tmp"; "download wcgl_data/models"]).
Proof.
  apply (load_model_from_gcs_no_file (rt := empty_bucket_runtime)
           "en" "wcgl_data" "models" [] ["mkdir tmp"]
           ["mkdir tmp"; "download wcgl_data/models"]);
    reflexivity.
Defined.

Lemma ner_hits_counter_bounds_witness : 0 <= 2 <= 3.
Proof.
  read_batch (PyStr Batches.two_tasks) Hl.
  refine (ner_hits_counter_bounds (PyStr Batches.two_tasks) _ _
            [(PyStr "m1", 2); (PyStr "m2", 1)] Hl eq_refl _
            (PyStr "m1") 2 _).
  - vm_compute. reflexivity.
  - left. reflexivity.
Defined.



Lemma format_tasks_for_train_output_witness :
  train_data_of (PyBytes Batches.for_training) =
    Ok [(PyStr "Flyte is an organisation.", [(PyInt 0, PyInt 5, PyStr "ORG")])] /\
  format_tasks_for_train (PyBytes Batches.for_training) =
    Ok (PyStr (JsonText.text
      "[['Flyte is an organisation.', {'entities': [[0, 5, 'ORG']]}]]")).
Proof.
  read_batch (PyBytes Batches.for_training) Hl.
  destruct (format_tasks_for_train_output (PyBytes Batches.for_training) _ _
              [ {| source_text := PyStr "Flyte is an organisation.";
                   accepted := [ {| entry_start := PyInt 0;
                                    entry_end := PyInt 5;
                                    entry_labels := [PyStr "ORG"] |} ] |};
                {| source_text := PyStr "Nothing here."; accepted := [] |} ]
              Hl eq_refl) as [Htd [Hout _]].
  - constructor; [|constructor; [|constructor]].
    + split.
      * eexists. eexists. repeat split; reflexivity.
      * eexists. eexists. split; [reflexivity|]. split; [reflexivity|].
        constructor; [|constructor].
        eexists. eexists. repeat split; reflexivity.
    + split.
      * eexists. eexists. repeat split; reflexivity.
      * eexists. eexists. split; [reflexivity|]. split; [reflexivity|].
        constructor.
  - split.
    + rewrite Htd. reflexivity.
    + rewrite Hout. vm_compute. reflexivity.
Defined.
